(** * Iceland road tax vs fuel tax calculator: validation, breakdown and chart series

    A shallow embedding of the calculation core of [src/App.tsx] (the React
    component [App]) and of its earlier revision, together with the
    properties of the validator, the Calculate handler, the savings
    derivation and the three chart-series generators.

    JavaScript numbers are IEEE 754 binary64 values.  They are modelled with
    the standard library's [spec_float] at precision 53 and maximal exponent
    1024, whose operations are ordinary functions over [Z]; every statement
    below is therefore about the rounded arithmetic the program really
    performs, including infinities, signed zeros and NaN. *)

From Stdlib Require Import ZArith List String Bool Lia.
From Stdlib Require Import Floats.
Import ListNotations.

Set Warnings "-inexact-float".

(** ** JavaScript numbers *)

Module JS.

Definition number : Type := spec_float.

Definition prec : Z := 53.
Definition emax : Z := 1024.

(** An integer literal: the nearest binary64 value. *)
Definition of_Z (z : Z) : number := binary_normalize prec emax z 0 false.

Definition add : number -> number -> number := SFadd prec emax.
Definition sub : number -> number -> number := SFsub prec emax.
Definition mul : number -> number -> number := SFmul prec emax.
Definition div : number -> number -> number := SFdiv prec emax.

(** A decimal literal [n / d] (such as 6.95 = 695 / 100): both integers are
    exact, so the correctly rounded quotient is the nearest binary64 value
    to the decimal, which is what the JavaScript reader produces. *)
Definition decimal (n d : Z) : number := div (of_Z n) (of_Z d).

Definition NaN : number := S754_nan.
Definition Infinity : number := S754_infinity false.

(** [x < y], [x <= y] and [x > y]; all false when an operand is NaN. *)
Definition ltb : number -> number -> bool := SFltb.
Definition leb : number -> number -> bool := SFleb.
Definition gtb (x y : number) : bool := ltb y x.
Definition geb (x y : number) : bool := leb y x.

(** [Number.isNaN]. *)
Definition isNaN (x : number) : bool :=
  match x with
  | S754_nan => true
  | _ => false
  end.

(** ToBoolean on a number: false exactly for +0, -0 and NaN. *)
Definition truthy (x : number) : bool :=
  match x with
  | S754_nan | S754_zero _ => false
  | _ => true
  end.

(** The signed integer [m] of a finite value [m * 2^e]. *)
Definition signed (s : bool) (m : positive) : Z := cond_Zopp s (Zpos m).

(** [Math.ceil]: the smallest integral number not below [x]; NaN, the
    zeros and the infinities are returned unchanged, and a value in
    (-1, 0) gives -0. *)
Definition ceil (x : number) : number :=
  match x with
  | S754_finite s m e =>
      if (0 <=? e)%Z then x
      else binary_normalize prec emax
             (- ((- signed s m) / 2 ^ (- e)))%Z 0 s
  | _ => x
  end.

(** [Math.round]: the integral number closest to [x], ties towards
    +Infinity, that is floor (x + 1/2) computed exactly. *)
Definition round (x : number) : number :=
  match x with
  | S754_finite s m e =>
      if (0 <=? e)%Z then x
      else binary_normalize prec emax
             ((2 * signed s m + 2 ^ (- e)) / 2 ^ (- e + 1))%Z 0 s
  | _ => x
  end.

(** [Math.max] of two arguments: NaN if either is NaN, and +0 is above -0. *)
Definition max (a b : number) : number :=
  if isNaN a || isNaN b then NaN
  else if ltb a b then b
  else if ltb b a then a
  else match a with
       | S754_zero true => b
       | _ => a
       end.

End JS.

Import JS.

Declare Scope js_scope.
Delimit Scope js_scope with js.
Bind Scope js_scope with number.
Infix "+" := add : js_scope.
Infix "-" := sub : js_scope.
Infix "*" := mul : js_scope.
Infix "/" := div : js_scope.
Infix "<?" := ltb : js_scope.
Infix "<=?" := leb : js_scope.
Infix ">?" := gtb : js_scope.
Infix ">=?" := geb : js_scope.
Notation "# z" := (of_Z z) (at level 1, format "# z") : js_scope.

Open Scope string_scope.
Open Scope js_scope.

(** ** Data model of [App] *)

(** [type VehicleType = 'Petrol/Diesel' | 'Electric'].  The type is erased
    at run time and the select handler casts the option text it receives
    without a check ([e.target.value as VehicleType]), so the cell holds
    whatever text the select delivers: a vehicle type is a string, and the
    two declared values are two of them. *)
Definition VehicleType : Type := string.

Definition PetrolDiesel : VehicleType := "Petrol/Diesel".
Definition Electric : VehicleType := "Electric".

(** A numeric input held in state is declared [number | '']: a number, or
    the empty string of a cleared field.  At run time it can also hold
    [undefined], the result of a preset lookup under a text that is no key
    of the table. *)
Inductive field : Type :=
  | Num (n : number)
  | Empty
  | Undefined.

(** [Number(v)]: the empty string converts to 0 and [undefined] to NaN.  The
    arithmetic and relational operators apply the same conversion to an
    operand that is not a number. *)
Definition Number (v : field) : number :=
  match v with
  | Num n => n
  | Empty => #0
  | Undefined => NaN
  end.

(** [!v]: the empty string, [undefined], the zeros and NaN are falsy. *)
Definition falsy (v : field) : bool :=
  match v with
  | Num n => negb (truthy n)
  | Empty => true
  | Undefined => true
  end.

(** [v === ''  ||  Number.isNaN(Number(v))]. *)
Definition missing (v : field) : bool :=
  match v with
  | Empty => true
  | Num n => isNaN (Number (Num n))
  | Undefined => isNaN (Number Undefined)
  end.

(** The preset tables, objects with the two keys ['Petrol/Diesel'] and
    [Electric].  [table[vt]] is the number under the key [vt], and
    [undefined] when the text [vt] is no key of the table (the texts that
    reach the lookup are vehicle names; the member names that every object
    inherits, such as ["constructor"], are not among them). *)
Definition defaultEfficiency (vt : VehicleType) : field :=
  if (vt =? PetrolDiesel)%string then Num (decimal 65 10)
  else if (vt =? Electric)%string then Num #18
  else Undefined.

Definition defaultCurrentPrice (vt : VehicleType) : field :=
  if (vt =? PetrolDiesel)%string then Num #185
  else if (vt =? Electric)%string then Num (decimal 257 10)
  else Undefined.

Definition defaultPastPrice (vt : VehicleType) : field :=
  if (vt =? PetrolDiesel)%string then Num #300
  else if (vt =? Electric)%string then Num (decimal 257 10)
  else Undefined.

Record Breakdown : Type := mkBreakdown {
  consumed : number;
  previousEstimatedCost : number;
  newFuelCost : number;
  newTaxes : number;
  newTotalCost : number
}.

(** The interface languages offered by the three language buttons. *)
Inductive Language : Type := En | Is | Ga.

(** The component state: one field per [useState] cell, plus the language
    held by the i18n instance. *)
Record AppState : Type := mkState {
  vehicleType : VehicleType;
  distance : field;
  efficiency : field;
  currentFuelPrice : field;
  pastFuelPrice : field;
  errors : list string;
  isGraphExpanded : bool;
  isVehicleComparisonExpanded : bool;
  isEfficiencyComparisonExpanded : bool;
  computedBreakdown : option Breakdown;
  language : Language
}.

Definition setErrors (errs : list string) (s : AppState) : AppState :=
  mkState (vehicleType s) (distance s) (efficiency s) (currentFuelPrice s)
    (pastFuelPrice s) errs (isGraphExpanded s) (isVehicleComparisonExpanded s)
    (isEfficiencyComparisonExpanded s) (computedBreakdown s) (language s).

Definition setComputedBreakdown (b : option Breakdown) (s : AppState) : AppState :=
  mkState (vehicleType s) (distance s) (efficiency s) (currentFuelPrice s)
    (pastFuelPrice s) (errors s) (isGraphExpanded s)
    (isVehicleComparisonExpanded s) (isEfficiencyComparisonExpanded s) b
    (language s).

Definition setVehicleType (vt : VehicleType) (s : AppState) : AppState :=
  mkState vt (distance s) (efficiency s) (currentFuelPrice s)
    (pastFuelPrice s) (errors s) (isGraphExpanded s)
    (isVehicleComparisonExpanded s) (isEfficiencyComparisonExpanded s)
    (computedBreakdown s) (language s).

Definition setDistance (v : field) (s : AppState) : AppState :=
  mkState (vehicleType s) v (efficiency s) (currentFuelPrice s)
    (pastFuelPrice s) (errors s) (isGraphExpanded s)
    (isVehicleComparisonExpanded s) (isEfficiencyComparisonExpanded s)
    (computedBreakdown s) (language s).

Definition setEfficiency (v : field) (s : AppState) : AppState :=
  mkState (vehicleType s) (distance s) v (currentFuelPrice s)
    (pastFuelPrice s) (errors s) (isGraphExpanded s)
    (isVehicleComparisonExpanded s) (isEfficiencyComparisonExpanded s)
    (computedBreakdown s) (language s).

Definition setCurrentFuelPrice (v : field) (s : AppState) : AppState :=
  mkState (vehicleType s) (distance s) (efficiency s) v
    (pastFuelPrice s) (errors s) (isGraphExpanded s)
    (isVehicleComparisonExpanded s) (isEfficiencyComparisonExpanded s)
    (computedBreakdown s) (language s).

Definition setPastFuelPrice (v : field) (s : AppState) : AppState :=
  mkState (vehicleType s) (distance s) (efficiency s) (currentFuelPrice s)
    v (errors s) (isGraphExpanded s)
    (isVehicleComparisonExpanded s) (isEfficiencyComparisonExpanded s)
    (computedBreakdown s) (language s).

Definition setIsGraphExpanded (b : bool) (s : AppState) : AppState :=
  mkState (vehicleType s) (distance s) (efficiency s) (currentFuelPrice s)
    (pastFuelPrice s) (errors s) b
    (isVehicleComparisonExpanded s) (isEfficiencyComparisonExpanded s)
    (computedBreakdown s) (language s).

Definition setIsVehicleComparisonExpanded (b : bool) (s : AppState) : AppState :=
  mkState (vehicleType s) (distance s) (efficiency s) (currentFuelPrice s)
    (pastFuelPrice s) (errors s) (isGraphExpanded s)
    b (isEfficiencyComparisonExpanded s)
    (computedBreakdown s) (language s).

Definition setIsEfficiencyComparisonExpanded (b : bool) (s : AppState) : AppState :=
  mkState (vehicleType s) (distance s) (efficiency s) (currentFuelPrice s)
    (pastFuelPrice s) (errors s) (isGraphExpanded s)
    (isVehicleComparisonExpanded s) b
    (computedBreakdown s) (language s).

Definition changeLanguage (l : Language) (s : AppState) : AppState :=
  mkState (vehicleType s) (distance s) (efficiency s) (currentFuelPrice s)
    (pastFuelPrice s) (errors s) (isGraphExpanded s)
    (isVehicleComparisonExpanded s) (isEfficiencyComparisonExpanded s)
    (computedBreakdown s) l.

(** The state of the first render: the [useState] initial values. *)
Definition initialState : AppState :=
  mkState PetrolDiesel (Num #15000) (Num (decimal 65 10)) (Num #185)
    (Num #300) [] false false false None En.

(** ** The validator *)

(** [vehicleType === 'Electric' ? 'electricity price' : 'fuel price']. *)
Definition priceLabel (vt : VehicleType) : string :=
  if (vt =? Electric)%string then "electricity price" else "fuel price".

(** The [if / else if / else if] chain of the distance field: the messages
    it pushes (at most one). *)
Definition distanceErrors (v : field) : list string :=
  if missing v then ["Annual distance is required"]
  else if Number v <? #0 then ["Distance cannot be negative"]
  else if Number v >? #1000000 then ["Distance seems unreasonably large"]
  else [].

Definition efficiencyErrors (v : field) : list string :=
  if missing v then ["Efficiency is required"]
  else if Number v <=? #0 then ["Efficiency must be greater than 0"]
  else if Number v >? #1000 then ["Efficiency seems unreasonably large"]
  else [].

(** The chain shared by the two price fields; [which] is "Current" or
    "Past" and [label] the price label of the vehicle type. *)
Definition priceErrors (which label : string) (v : field) : list string :=
  if missing v then [(which ++ " " ++ label ++ " is required")%string]
  else if Number v <? #0 then
    [(which ++ " " ++ label ++ " cannot be negative")%string]
  else if Number v >? #10000 then
    [(which ++ " " ++ label ++ " seems unreasonably large")%string]
  else [].

(** The array [errs] at the end of [validateInputs]: the four chains push in
    source order. *)
Definition validationErrors (s : AppState) : list string :=
  (distanceErrors (distance s)
   ++ efficiencyErrors (efficiency s)
   ++ priceErrors "Current" (priceLabel (vehicleType s)) (currentFuelPrice s)
   ++ priceErrors "Past" (priceLabel (vehicleType s)) (pastFuelPrice s))%list.

(** [validateInputs]: stores [errs] with [setErrors] and returns
    [errs.length === 0]. *)
Definition validateInputs (s : AppState) : AppState * bool :=
  let errs := validationErrors s in
  (setErrors errs s, (List.length errs =? 0)%nat).

(** ** The Calculate handler and the savings *)

Definition roadTaxPerKm : number := decimal 695 100.

(** The breakdown built by the body of [handleCalculate] after validation. *)
Definition breakdownOf (s : AppState) : Breakdown :=
  let d := Number (distance s) in
  let eff := Number (efficiency s) in
  let costPerUnit := Number (currentFuelPrice s) in
  let pastCostPerUnit := Number (pastFuelPrice s) in
  let consumed := (d * eff) / #100 in
  let previousEstimatedCost := consumed * pastCostPerUnit in
  let newFuelCost := consumed * costPerUnit in
  let newTaxes := d * roadTaxPerKm in
  let newTotalCost := newFuelCost + newTaxes in
  mkBreakdown consumed previousEstimatedCost newFuelCost newTaxes newTotalCost.

Definition handleCalculate (s : AppState) : AppState :=
  let (s1, ok) := validateInputs s in
  if negb ok then s1
  else setComputedBreakdown (Some (breakdownOf s)) s1.

(** The [savings] memo: [null] without a breakdown. *)
Definition savings (s : AppState) : option number :=
  match computedBreakdown s with
  | None => None
  | Some b => Some (previousEstimatedCost b - newTotalCost b)
  end.

(** ** The chart-series generators *)

(** [typeof v === 'number' ? v : 0]. *)
Definition orZero (v : field) : number :=
  match v with
  | Num n => n
  | Empty => #0
  | Undefined => #0
  end.

(** [typeof distance === 'number' ? distance * 2 : 0]. *)
Definition maxDistanceOf (v : field) : number :=
  match v with
  | Num n => n * #2
  | Empty => #0
  | Undefined => #0
  end.

(** [Math.ceil(maxDistance / 20)]. *)
Definition stepOf (maxDistance : number) : number := ceil (maxDistance / #20).

(** [for (let d = d0; d <= maxDistance; d += step) data.push(body(d))],
    returning [data].  The loop need not finish, so it runs on fuel: one
    unit per iteration, and [None] when the test still holds with no fuel
    left. *)
Fixpoint for_loop {A : Type} (fuel : nat) (maxDistance step : number)
    (body : number -> A) (d : number) : option (list A) :=
  if d <=? maxDistance then
    match fuel with
    | O => None
    | S fuel' =>
        match for_loop fuel' maxDistance step body (d + step) with
        | Some data => Some (body d :: data)
        | None => None
        end
    end
  else Some [].

(** [!computedBreakdown]. *)
Definition noBreakdown (s : AppState) : bool :=
  match computedBreakdown s with
  | None => true
  | Some _ => false
  end.

(** A point of the old-versus-new chart.  In the source a point is an
    object with the key [distance] and one key per series, here the
    translated labels [t('oldSystem')] and [t('newSystem')]: the keys name
    the lines of the chart and change with the language.  The record holds
    the values, one field per series in the order of the source, and leaves
    the key texts out (the translation table is not part of the component);
    the statements below are about the values. *)
Record GraphPoint : Type := mkGraphPoint {
  gDistance : number;
  gOldSystem : number;
  gNewSystem : number
}.

Definition graphBody (s : AppState) (d : number) : GraphPoint :=
  let consumed := (d * orZero (efficiency s)) / #100 in
  let oldSystemCost := consumed * orZero (pastFuelPrice s) in
  let newSystemCost :=
    (d * decimal 695 100) + (consumed * orZero (currentFuelPrice s)) in
  mkGraphPoint d (round oldSystemCost) (round newSystemCost).

Definition graphData (fuel : nat) (s : AppState) : option (list GraphPoint) :=
  if noBreakdown s || falsy (distance s) || falsy (efficiency s)
     || falsy (currentFuelPrice s) || falsy (pastFuelPrice s)
  then Some []
  else
    let maxDistance := maxDistanceOf (distance s) in
    let step := stepOf maxDistance in
    for_loop fuel maxDistance step (graphBody s) #0.

(** A point of the vehicle-type chart: the current type under the new and
    the old system, then the other type, from its defaults.  The four keys
    are built from [t('electric')], [t('petrolDiesel')], [t('newSystemLabel')]
    and [t('oldSystemLabel')]; as for [GraphPoint] the record holds the
    values. *)
Record VehiclePoint : Type := mkVehiclePoint {
  vDistance : number;
  vCurrentNew : number;
  vCurrentOld : number;
  vOtherNew : number;
  vOtherOld : number
}.

(** [vehicleType === 'Electric' ? 'Petrol/Diesel' : 'Electric']. *)
Definition otherVehicleType (vt : VehicleType) : VehicleType :=
  if (vt =? Electric)%string then PetrolDiesel else Electric.

(** The loop body of [vehicleComparisonData].  The three presets of the
    other vehicle type are table lookups used as operands of [*], which
    converts them as [Number] does; the other type is always one of the two
    keys, so they are numbers. *)
Definition vehicleBody (s : AppState) (d : number) : VehiclePoint :=
  let otherEfficiency := defaultEfficiency (otherVehicleType (vehicleType s)) in
  let otherCurrentPrice := defaultCurrentPrice (otherVehicleType (vehicleType s)) in
  let otherPastPrice := defaultPastPrice (otherVehicleType (vehicleType s)) in
  let currentConsumed := (d * orZero (efficiency s)) / #100 in
  let currentNewCost :=
    (d * decimal 695 100) + (currentConsumed * orZero (currentFuelPrice s)) in
  let currentOldCost := currentConsumed * orZero (pastFuelPrice s) in
  let otherConsumed := (d * Number otherEfficiency) / #100 in
  let otherNewCost :=
    (d * decimal 695 100) + (otherConsumed * Number otherCurrentPrice) in
  let otherOldCost := otherConsumed * Number otherPastPrice in
  mkVehiclePoint d (round currentNewCost) (round currentOldCost)
    (round otherNewCost) (round otherOldCost).

Definition vehicleComparisonData (fuel : nat) (s : AppState)
    : option (list VehiclePoint) :=
  if noBreakdown s || falsy (distance s) then Some []
  else
    let maxDistance := maxDistanceOf (distance s) in
    let step := stepOf maxDistance in
    for_loop fuel maxDistance step (vehicleBody s) #0.

(** A point of the efficiency chart: the old system at the base efficiency,
    then the new system at the base efficiency, at one unit more and at one
    unit less.  The keys are built from [t('oldSystem')], [t('newSystem')],
    the three efficiencies and the efficiency unit; as for [GraphPoint] the
    record holds the values. *)
Record EfficiencyPoint : Type := mkEfficiencyPoint {
  eDistance : number;
  eOldSystem : number;
  eNewBase : number;
  eNewLessEfficient : number;
  eNewMoreEfficient : number
}.

Definition baseEfficiency (s : AppState) : number := orZero (efficiency s).
Definition lessEfficientValue (s : AppState) : number := baseEfficiency s + #1.
Definition moreEfficientValue (s : AppState) : number :=
  max #0 (baseEfficiency s - #1).

(** The old-system and new-system cost of driving [d] km at efficiency [e]
    as the loop bodies compute them. *)
Definition oldCostAt (d e pastPrice : number) : number :=
  ((d * e) / #100) * pastPrice.
Definition newCostAt (d e currentPrice : number) : number :=
  (d * decimal 695 100) + (((d * e) / #100) * currentPrice).

Definition efficiencyBody (s : AppState) (d : number) : EfficiencyPoint :=
  let baseConsumed := (d * baseEfficiency s) / #100 in
  let baseOldCost := baseConsumed * orZero (pastFuelPrice s) in
  let baseNewCost :=
    (d * decimal 695 100) + (baseConsumed * orZero (currentFuelPrice s)) in
  let lessEfficientConsumed := (d * lessEfficientValue s) / #100 in
  let lessEfficientCost :=
    (d * decimal 695 100)
    + (lessEfficientConsumed * orZero (currentFuelPrice s)) in
  let moreEfficientConsumed := (d * moreEfficientValue s) / #100 in
  let moreEfficientCost :=
    (d * decimal 695 100)
    + (moreEfficientConsumed * orZero (currentFuelPrice s)) in
  mkEfficiencyPoint d (round baseOldCost) (round baseNewCost)
    (round lessEfficientCost) (round moreEfficientCost).

Definition efficiencyComparisonData (fuel : nat) (s : AppState)
    : option (list EfficiencyPoint) :=
  if noBreakdown s || falsy (distance s) || falsy (efficiency s)
     || falsy (currentFuelPrice s) || falsy (pastFuelPrice s)
  then Some []
  else
    let maxDistance := maxDistanceOf (distance s) in
    let step := stepOf maxDistance in
    for_loop fuel maxDistance step (efficiencyBody s) #0.

(** ** The event handlers *)

(** The events of the form.  [SelectVehicleType] carries [e.target.value]
    of the select; an edit carries what the input handler stores,
    [e.target.value === '' ? '' : Number(e.target.value)]. *)
Inductive Action : Type :=
  | Submit
  | SelectVehicleType (vt : VehicleType)
  | EditDistance (v : field)
  | EditCurrentFuelPrice (v : field)
  | EditPastFuelPrice (v : field)
  | EditEfficiency (v : field)
  | ToggleGraph
  | ToggleVehicleComparison
  | ToggleEfficiencyComparison
  | SelectLanguage (l : Language)
  | Reset.

(** The [onChange] handler of the vehicle-type select.  [vt] is
    [e.target.value]: the two options carry no [value] attribute, so it is
    the text on display, [t('petrolDiesel')] or [t('electric')] in the
    current language.  The handler stores it as the vehicle type and stores
    the three lookups as they come, numbers or [undefined]. *)
Definition onVehicleTypeChange (vt : VehicleType) (s : AppState) : AppState :=
  setPastFuelPrice (defaultPastPrice vt)
    (setCurrentFuelPrice (defaultCurrentPrice vt)
       (setEfficiency (defaultEfficiency vt)
          (setVehicleType vt s))).

(** The [onClick] handler of the Reset button. *)
Definition onReset (s : AppState) : AppState :=
  setComputedBreakdown None
    (setErrors []
       (setPastFuelPrice (Num #300)
          (setCurrentFuelPrice (Num #185)
             (setEfficiency (defaultEfficiency PetrolDiesel)
                (setDistance (Num #15000)
                   (setVehicleType PetrolDiesel s)))))).

Definition step (a : Action) (s : AppState) : AppState :=
  match a with
  | Submit => handleCalculate s
  | SelectVehicleType vt => onVehicleTypeChange vt s
  | EditDistance v => setDistance v s
  | EditCurrentFuelPrice v => setCurrentFuelPrice v s
  | EditPastFuelPrice v => setPastFuelPrice v s
  | EditEfficiency v => setEfficiency v s
  | ToggleGraph => setIsGraphExpanded (negb (isGraphExpanded s)) s
  | ToggleVehicleComparison =>
      setIsVehicleComparisonExpanded (negb (isVehicleComparisonExpanded s)) s
  | ToggleEfficiencyComparison =>
      setIsEfficiencyComparisonExpanded
        (negb (isEfficiencyComparisonExpanded s)) s
  | SelectLanguage l => changeLanguage l s
  | Reset => onReset s
  end.

(** The state after a sequence of events, oldest first. *)
Definition run (acts : list Action) (s : AppState) : AppState :=
  fold_left (fun st a => step a st) acts s.

(** ** The earlier revision of the component

    The first revision of [App] has four vehicle types, fixed price labels
    and only the old-versus-new chart; its validator and Calculate handler
    are otherwise the same code. *)

Module Earlier.

(** [type VehicleType = 'Petrol' | 'Diesel' | 'Hybrid' | 'Electric'].  The
    four options of this revision are the literal texts themselves, so the
    select delivers one of the four declared values. *)
Inductive VehicleType : Type := Petrol | Diesel | Hybrid | Electric.

Definition defaultEfficiency (vt : VehicleType) : number :=
  match vt with
  | Petrol => decimal 65 10
  | Diesel => decimal 55 10
  | Hybrid => #4
  | Electric => #18
  end.

Record AppState : Type := mkState {
  vehicleType : VehicleType;
  distance : field;
  efficiency : field;
  currentFuelPrice : field;
  pastFuelPrice : field;
  errors : list string;
  isGraphExpanded : bool;
  computedBreakdown : option Breakdown
}.

Definition setErrors (errs : list string) (s : AppState) : AppState :=
  mkState (vehicleType s) (distance s) (efficiency s) (currentFuelPrice s)
    (pastFuelPrice s) errs (isGraphExpanded s) (computedBreakdown s).

Definition setComputedBreakdown (b : option Breakdown) (s : AppState)
    : AppState :=
  mkState (vehicleType s) (distance s) (efficiency s) (currentFuelPrice s)
    (pastFuelPrice s) (errors s) (isGraphExpanded s) b.

Definition validationErrors (s : AppState) : list string :=
  (distanceErrors (distance s)
   ++ efficiencyErrors (efficiency s)
   ++ priceErrors "Current" "fuel price" (currentFuelPrice s)
   ++ priceErrors "Past" "fuel price" (pastFuelPrice s))%list.

Definition validateInputs (s : AppState) : AppState * bool :=
  let errs := validationErrors s in
  (setErrors errs s, (List.length errs =? 0)%nat).

Definition breakdownOf (s : AppState) : Breakdown :=
  let d := Number (distance s) in
  let eff := Number (efficiency s) in
  let costPerUnit := Number (currentFuelPrice s) in
  let pastCostPerUnit := Number (pastFuelPrice s) in
  let consumed := (d * eff) / #100 in
  let previousEstimatedCost := consumed * pastCostPerUnit in
  let newFuelCost := consumed * costPerUnit in
  let newTaxes := d * roadTaxPerKm in
  let newTotalCost := newFuelCost + newTaxes in
  mkBreakdown consumed previousEstimatedCost newFuelCost newTaxes
    newTotalCost.

Definition handleCalculate (s : AppState) : AppState :=
  let (s1, ok) := validateInputs s in
  if negb ok then s1
  else setComputedBreakdown (Some (breakdownOf s)) s1.

(** The setters of the four inputs and of the vehicle type. *)
Definition setVehicleType (vt : VehicleType) (s : AppState) : AppState :=
  mkState vt (distance s) (efficiency s) (currentFuelPrice s)
    (pastFuelPrice s) (errors s) (isGraphExpanded s) (computedBreakdown s).

Definition setDistance (v : field) (s : AppState) : AppState :=
  mkState (vehicleType s) v (efficiency s) (currentFuelPrice s)
    (pastFuelPrice s) (errors s) (isGraphExpanded s) (computedBreakdown s).

Definition setEfficiency (v : field) (s : AppState) : AppState :=
  mkState (vehicleType s) (distance s) v (currentFuelPrice s)
    (pastFuelPrice s) (errors s) (isGraphExpanded s) (computedBreakdown s).

Definition setCurrentFuelPrice (v : field) (s : AppState) : AppState :=
  mkState (vehicleType s) (distance s) (efficiency s) v
    (pastFuelPrice s) (errors s) (isGraphExpanded s) (computedBreakdown s).

Definition setPastFuelPrice (v : field) (s : AppState) : AppState :=
  mkState (vehicleType s) (distance s) (efficiency s) (currentFuelPrice s)
    v (errors s) (isGraphExpanded s) (computedBreakdown s).

(** The [onChange] handler of the vehicle-type select: only the efficiency
    is prefilled. *)
Definition onVehicleTypeChange (vt : VehicleType) (s : AppState) : AppState :=
  setEfficiency (Num (defaultEfficiency vt)) (setVehicleType vt s).

(** The [onClick] handler of the Reset button: the vehicle type is not
    among the cells it sets. *)
Definition onReset (s : AppState) : AppState :=
  setComputedBreakdown None
    (setErrors []
       (setPastFuelPrice (Num #300)
          (setCurrentFuelPrice (Num #185)
             (setEfficiency (Num (defaultEfficiency Petrol))
                (setDistance (Num #15000) s))))).

Definition savings (s : AppState) : option number :=
  match computedBreakdown s with
  | None => None
  | Some b => Some (previousEstimatedCost b - newTotalCost b)
  end.

Definition noBreakdown (s : AppState) : bool :=
  match computedBreakdown s with
  | None => true
  | Some _ => false
  end.

(** The loop body of [graphData]; the series are stored under the fixed
    keys ['Old System'] and ['New System']. *)
Definition graphBody (s : AppState) (d : number) : GraphPoint :=
  let consumed := (d * orZero (efficiency s)) / #100 in
  let oldSystemCost := consumed * orZero (pastFuelPrice s) in
  let newSystemCost :=
    (d * decimal 695 100) + (consumed * orZero (currentFuelPrice s)) in
  mkGraphPoint d (round oldSystemCost) (round newSystemCost).

Definition graphData (fuel : nat) (s : AppState) : option (list GraphPoint) :=
  if noBreakdown s || falsy (distance s) || falsy (efficiency s)
     || falsy (currentFuelPrice s) || falsy (pastFuelPrice s)
  then Some []
  else
    let maxDistance := maxDistanceOf (distance s) in
    let step := stepOf maxDistance in
    for_loop fuel maxDistance step (graphBody s) #0.

End Earlier.

(** ** States used in the examples *)

(** Calculate pressed on the first render. *)
Definition calculatedState : AppState := run [Submit] initialState.

(** Distance set to 0, then Calculate. *)
Definition zeroDistanceState : AppState :=
  run [EditDistance (Num #0); Submit] initialState.

(** Distance -1 and efficiency 0 typed into the first render. *)
Definition twoErrorsState : AppState :=
  run [EditDistance (Num #(-1)); EditEfficiency (Num #0)] initialState.

(** A calculation, then the efficiency field cleared. *)
Definition clearedEfficiencyState : AppState :=
  run [Submit; EditEfficiency Empty] initialState.

(** A calculation, then distance 10 and efficiency 0.5 typed in. *)
Definition halfEfficiencyState : AppState :=
  run [Submit; EditDistance (Num #10); EditEfficiency (Num (decimal 5 10))]
    initialState.

(** A calculation, then the distance edited to 1e308. *)
Definition hugeDistanceState : AppState :=
  run [Submit; EditDistance (Num #(10 ^ 308))] initialState.

(** A calculation, then the distance edited to 5e-324, the least positive
    number. *)
Definition tinyDistanceState : AppState :=
  run [Submit; EditDistance (Num (S754_finite false 1 (-1074)))] initialState.

(** ** The validation rules, stated apart from the validator

    The rules as the specification words them: a field is required (set and
    not NaN); the distance must be at least 0 and at most 1,000,000; the
    efficiency must be above 0 and at most 1,000; a price must be at least
    0 and at most 10,000. *)
Definition required (v : field) : bool :=
  match v with
  | Num n => negb (isNaN n)
  | Empty => false
  | Undefined => false
  end.

Definition distanceRule (v : field) : bool :=
  required v && (Number v >=? #0) && (Number v <=? #1000000).

Definition efficiencyRule (v : field) : bool :=
  required v && (Number v >? #0) && (Number v <=? #1000).

Definition priceRule (v : field) : bool :=
  required v && (Number v >=? #0) && (Number v <=? #10000).

(** ** The sampling policy, stated apart from the loop

    [Samples maxDistance step d ds]: starting at [d] and adding [step] each
    time, [ds] lists the distances visited for as long as the distance is at
    most [maxDistance], and the distance after the last one fails that test. *)
Inductive Samples (maxDistance step : number) : number -> list number -> Prop :=
  | Samples_done (d : number) :
      (d <=? maxDistance) = false -> Samples maxDistance step d []
  | Samples_more (d : number) (ds : list number) :
      (d <=? maxDistance) = true ->
      Samples maxDistance step (d + step) ds ->
      Samples maxDistance step d (d :: ds).

(** The guard shared by [graphData] and [efficiencyComparisonData]. *)
Definition allInputsUsable (s : AppState) : bool :=
  negb (noBreakdown s) && negb (falsy (distance s))
  && negb (falsy (efficiency s)) && negb (falsy (currentFuelPrice s))
  && negb (falsy (pastFuelPrice s)).

(** The guard of [vehicleComparisonData]. *)
Definition distanceUsable (s : AppState) : bool :=
  negb (noBreakdown s) && negb (falsy (distance s)).

(** The distances 0, 1500, ..., 30000 sampled for the default distance. *)
Definition defaultSamples : list number :=
  map (fun k : nat => #(1500 * Z.of_nat k)) (seq 0 21).

(** ** Further notions used by the properties *)

(** The text is one of the two keys of the preset tables. *)
Definition listed (vt : VehicleType) : bool :=
  (vt =? PetrolDiesel)%string || (vt =? Electric)%string.

(** [Number.isFinite]: neither NaN nor an infinity. *)
Definition isFinite (x : number) : bool :=
  match x with
  | S754_zero _ | S754_finite _ _ _ => true
  | _ => false
  end.

(** [x] is +0 or -0. *)
Definition isZero (x : number) : bool :=
  match x with
  | S754_zero _ => true
  | _ => false
  end.

(** Two states that agree on what the generators read: the vehicle type,
    the four inputs, whether a breakdown is stored, and the language, which
    the generators read through [t] when they build the series keys. *)
Definition sameChartInputs (s s' : AppState) : Prop :=
  vehicleType s = vehicleType s' /\ distance s = distance s'
  /\ efficiency s = efficiency s'
  /\ currentFuelPrice s = currentFuelPrice s'
  /\ pastFuelPrice s = pastFuelPrice s'
  /\ noBreakdown s = noBreakdown s'
  /\ language s = language s'.

(** What a cost series holds at distance 0: a zero when the efficiency and
    the price that enter it are finite ([ok]), and NaN otherwise, since
    0 * Infinity is NaN.  An old-system cost can be -0; a new-system cost is
    the sum with the tax 0 * 6.95 = +0, hence +0. *)
Definition originOld (ok : bool) (v : number) : Prop :=
  if ok then isZero v = true else isNaN v = true.

Definition originNew (ok : bool) (v : number) : Prop :=
  if ok then v = #0 else isNaN v = true.

(** The events that only read the stored breakdown and error list: all but
    Calculate and Reset. *)
Definition isEdit (a : Action) : bool :=
  match a with
  | Submit | Reset => false
  | _ => true
  end.

(** The breakdown of four validated numbers. *)
Definition breakdownFrom (d eff cur past : number) : Breakdown :=
  mkBreakdown ((d * eff) / #100) (((d * eff) / #100) * past)
    (((d * eff) / #100) * cur) (d * roadTaxPerKm)
    ((((d * eff) / #100) * cur) + (d * roadTaxPerKm)).

(** The vehicle type of the current revision that stands for one of the
    earlier revision: the three fuel types were merged into one. *)
Definition mergeVehicleType (vt : Earlier.VehicleType) : VehicleType :=
  match vt with
  | Earlier.Electric => Electric
  | _ => PetrolDiesel
  end.

(** A state of the earlier revision seen as a state of the current one,
    with the two new charts collapsed. *)
Definition fromEarlier (s : Earlier.AppState) : AppState :=
  mkState (mergeVehicleType (Earlier.vehicleType s)) (Earlier.distance s)
    (Earlier.efficiency s) (Earlier.currentFuelPrice s)
    (Earlier.pastFuelPrice s) (Earlier.errors s) (Earlier.isGraphExpanded s)
    false false (Earlier.computedBreakdown s) En.

(** Builds a [Samples] derivation for closed numbers by running the test. *)
Ltac sample_all :=
  repeat (vm_compute;
          first [ apply Samples_done; reflexivity
                | apply Samples_more; [reflexivity|] ]).

(** * Properties *)

(** ** Numbers *)

(** The road tax constant is the number the literal [6.95] denotes. *)
Lemma roadTaxPerKm_literal : roadTaxPerKm = Prim2SF 6.95%float.
Proof. vm_compute. reflexivity. Qed.

(** The decimal defaults are the numbers their literals denote. *)
Lemma default_literals :
  decimal 65 10 = Prim2SF 6.5%float /\ decimal 257 10 = Prim2SF 25.7%float
  /\ decimal 5 10 = Prim2SF 0.5%float /\ #(10 ^ 308) = Prim2SF 1e308%float
  /\ S754_finite false 1 (-1074) = Prim2SF 5e-324%float.
Proof. vm_compute. repeat split; reflexivity. Qed.

(** A comparison that holds has no NaN operand. *)
Lemma ltb_not_NaN_l (x y : number) : (x <? y) = true -> isNaN x = false.
Proof. destruct x; simpl; trivial; discriminate. Qed.

Lemma ltb_not_NaN_r (x y : number) : (x <? y) = true -> isNaN y = false.
Proof. destruct x, y; simpl; trivial; discriminate. Qed.

(** Swapping the operands of a comparison reverses its outcome. *)
Lemma SFcompare_antisym (x y : number) :
  SFcompare y x = option_map CompOpp (SFcompare x y).
Proof.
  destruct x as [[]|[]| |[] m e], y as [[]|[]| |[] m' e']; simpl;
    try reflexivity;
    rewrite (Z.compare_antisym e e'); destruct (e ?= e')%Z; simpl;
    try reflexivity;
    generalize (Pos.compare_cont_antisym m m' Eq); simpl; intros <-;
    reflexivity.
Qed.

(** Away from NaN, [x < y] is the negation of [y <= x]. *)
Lemma ltb_negb_leb (x y : number) :
  isNaN x = false -> isNaN y = false -> (x <? y) = negb (y <=? x).
Proof.
  intros Hx Hy. unfold ltb, leb, SFltb, SFleb.
  rewrite (SFcompare_antisym x y).
  destruct (SFcompare x y) as [[]|] eqn:Hc; simpl; try reflexivity.
  destruct x, y; simpl in *; discriminate.
Qed.

(** ** The validator *)

Lemma length_zero_iff_nil {A : Type} (l : list A) :
  (List.length l =? 0)%nat = true <-> l = [].
Proof.
  destruct l as [|a l]; simpl; split; intro H; trivial; discriminate.
Qed.

Lemma validateInputs_ok (s : AppState) :
  snd (validateInputs s) = true <-> validationErrors s = [].
Proof. unfold validateInputs; simpl. apply length_zero_iff_nil. Qed.

Lemma distanceErrors_nil (v : field) :
  distanceErrors v = [] -> exists n, v = Num n.
Proof. destruct v as [n| |]; [eauto | discriminate | discriminate]. Qed.

Lemma efficiencyErrors_nil (v : field) :
  efficiencyErrors v = [] -> exists n, v = Num n.
Proof. destruct v as [n| |]; [eauto | discriminate | discriminate]. Qed.

Lemma priceErrors_nil (which label : string) (v : field) :
  priceErrors which label v = [] -> exists n, v = Num n.
Proof. destruct v as [n| |]; [eauto | discriminate | discriminate]. Qed.

Lemma distanceErrors_length (v : field) : (List.length (distanceErrors v) <= 1)%nat.
Proof.
  unfold distanceErrors.
  destruct (missing v), (Number v <? #0), (Number v >? #1000000); simpl; lia.
Qed.

Lemma efficiencyErrors_length (v : field) :
  (List.length (efficiencyErrors v) <= 1)%nat.
Proof.
  unfold efficiencyErrors.
  destruct (missing v), (Number v <=? #0), (Number v >? #1000); simpl; lia.
Qed.

Lemma priceErrors_length (which label : string) (v : field) :
  (List.length (priceErrors which label v) <= 1)%nat.
Proof.
  unfold priceErrors.
  destruct (missing v), (Number v <? #0), (Number v >? #10000); simpl; lia.
Qed.

(** Each chain pushes a message exactly when its field breaks its rule. *)
Lemma distanceErrors_rule (v : field) :
  distanceErrors v = [] <-> distanceRule v = true.
Proof.
  destruct v as [n| |]; [|split; discriminate|split; discriminate].
  unfold distanceErrors, distanceRule, required, missing, Number, gtb, geb.
  destruct (isNaN n) eqn:Hnan; [split; discriminate|].
  rewrite (ltb_negb_leb n #0 Hnan eq_refl).
  rewrite (ltb_negb_leb #1000000 n eq_refl Hnan).
  destruct (#0 <=? n), (n <=? #1000000); simpl; split; intro H;
    trivial; discriminate.
Qed.

Lemma efficiencyErrors_rule (v : field) :
  efficiencyErrors v = [] <-> efficiencyRule v = true.
Proof.
  destruct v as [n| |]; [|split; discriminate|split; discriminate].
  unfold efficiencyErrors, efficiencyRule, required, missing, Number, gtb.
  destruct (isNaN n) eqn:Hnan; [split; discriminate|].
  rewrite (ltb_negb_leb #0 n eq_refl Hnan).
  rewrite (ltb_negb_leb #1000 n eq_refl Hnan).
  destruct (n <=? #0), (n <=? #1000); simpl; split; intro H;
    trivial; discriminate.
Qed.

Lemma priceErrors_rule (which label : string) (v : field) :
  priceErrors which label v = [] <-> priceRule v = true.
Proof.
  destruct v as [n| |]; [|split; discriminate|split; discriminate].
  unfold priceErrors, priceRule, required, missing, Number, gtb, geb.
  destruct (isNaN n) eqn:Hnan; [split; discriminate|].
  rewrite (ltb_negb_leb n #0 Hnan eq_refl).
  rewrite (ltb_negb_leb #10000 n eq_refl Hnan).
  destruct (#0 <=? n), (n <=? #10000); simpl; split; intro H;
    trivial; discriminate.
Qed.

(** All four fields of a validated state hold numbers. *)
Lemma validated_fields (s : AppState) :
  validationErrors s = [] ->
  exists d eff cur past,
    distance s = Num d /\ efficiency s = Num eff
    /\ currentFuelPrice s = Num cur /\ pastFuelPrice s = Num past.
Proof.
  unfold validationErrors. intro H.
  apply app_eq_nil in H as [Hd H].
  apply app_eq_nil in H as [He H].
  apply app_eq_nil in H as [Hc Hp].
  apply distanceErrors_nil in Hd as [d Hd].
  apply efficiencyErrors_nil in He as [eff He].
  apply priceErrors_nil in Hc as [cur Hc].
  apply priceErrors_nil in Hp as [past Hp].
  exists d, eff, cur, past. auto.
Qed.

Lemma handleCalculate_valid (s : AppState) :
  validationErrors s = [] ->
  handleCalculate s
  = setComputedBreakdown (Some (breakdownOf s)) (setErrors [] s).
Proof.
  intro H. unfold handleCalculate, validateInputs. rewrite H. reflexivity.
Qed.

Lemma handleCalculate_invalid (s : AppState) :
  validationErrors s <> [] ->
  handleCalculate s = setErrors (validationErrors s) s.
Proof.
  intro H. unfold handleCalculate, validateInputs.
  destruct (validationErrors s) as [|e errs]; [congruence | reflexivity].
Qed.

(** ** The Calculate handler *)

(** C1.  For every state that passes validation, the Calculate handler
    stores a breakdown with consumed = distance * efficiency / 100,
    previousEstimatedCost = consumed * past price, newFuelCost = consumed *
    current price, newTaxes = distance * 6.95 and newTotalCost = newFuelCost
    + newTaxes, each in binary64 arithmetic with no rounding step added. *)
Theorem handleCalculate_breakdown (s : AppState) :
  snd (validateInputs s) = true ->
  exists d eff cur past b,
    distance s = Num d /\ efficiency s = Num eff
    /\ currentFuelPrice s = Num cur /\ pastFuelPrice s = Num past
    /\ computedBreakdown (handleCalculate s) = Some b
    /\ consumed b = (d * eff) / #100
    /\ previousEstimatedCost b = consumed b * past
    /\ newFuelCost b = consumed b * cur
    /\ newTaxes b = d * Prim2SF 6.95%float
    /\ newTotalCost b = newFuelCost b + newTaxes b.
Proof.
  intro Hok. apply validateInputs_ok in Hok.
  destruct (validated_fields s Hok) as (d & eff & cur & past & Hd & He & Hc & Hp).
  exists d, eff, cur, past, (breakdownOf s).
  rewrite (handleCalculate_valid s Hok).
  rewrite <- roadTaxPerKm_literal.
  unfold breakdownOf. rewrite Hd, He, Hc, Hp. simpl.
  repeat split; assumption || reflexivity.
Qed.

Lemma handleCalculate_breakdown_witness :
  snd (validateInputs initialState) = true
  /\ exists d eff cur past b,
       distance initialState = Num d /\ efficiency initialState = Num eff
       /\ currentFuelPrice initialState = Num cur
       /\ pastFuelPrice initialState = Num past
       /\ computedBreakdown (handleCalculate initialState) = Some b
       /\ consumed b = (d * eff) / #100
       /\ previousEstimatedCost b = consumed b * past
       /\ newFuelCost b = consumed b * cur
       /\ newTaxes b = d * Prim2SF 6.95%float
       /\ newTotalCost b = newFuelCost b + newTaxes b.
Proof.
  split; [reflexivity | apply (handleCalculate_breakdown initialState); reflexivity].
Defined.

(** The same holds for the Calculate handler of the earlier revision. *)
Lemma earlier_handleCalculate_breakdown (s : Earlier.AppState) :
  snd (Earlier.validateInputs s) = true ->
  exists d eff cur past b,
    Earlier.distance s = Num d /\ Earlier.efficiency s = Num eff
    /\ Earlier.currentFuelPrice s = Num cur
    /\ Earlier.pastFuelPrice s = Num past
    /\ Earlier.computedBreakdown (Earlier.handleCalculate s) = Some b
    /\ consumed b = (d * eff) / #100
    /\ previousEstimatedCost b = consumed b * past
    /\ newFuelCost b = consumed b * cur
    /\ newTaxes b = d * roadTaxPerKm
    /\ newTotalCost b = newFuelCost b + newTaxes b.
Proof.
  unfold Earlier.validateInputs; simpl. intro Hok.
  apply length_zero_iff_nil in Hok.
  unfold Earlier.handleCalculate, Earlier.validateInputs. rewrite Hok. simpl.
  unfold Earlier.validationErrors in Hok.
  apply app_eq_nil in Hok as [Hd H].
  apply app_eq_nil in H as [He H].
  apply app_eq_nil in H as [Hc Hp].
  apply distanceErrors_nil in Hd as [d Hd].
  apply efficiencyErrors_nil in He as [eff He].
  apply priceErrors_nil in Hc as [cur Hc].
  apply priceErrors_nil in Hp as [past Hp].
  exists d, eff, cur, past, (Earlier.breakdownOf s).
  unfold Earlier.breakdownOf. rewrite Hd, He, Hc, Hp. simpl.
  repeat split; reflexivity.
Qed.

(** C2.  The validator checks the four fields one after the other, each on
    its own value: the stored messages are those of the distance, then of
    the efficiency, then of the current price, then of the past price, at
    most one per field and none exactly for a field that keeps its rule,
    and the result is [true] exactly when there is no message.  With distance -1 and efficiency 0 the distance message comes
    first and the efficiency message second, and when the two prices are
    valid these are the only two. *)
Theorem validateInputs_field_order (s : AppState) :
  let errs := errors (fst (validateInputs s)) in
  let current :=
    priceErrors "Current" (priceLabel (vehicleType s)) (currentFuelPrice s) in
  let past :=
    priceErrors "Past" (priceLabel (vehicleType s)) (pastFuelPrice s) in
  errs = (distanceErrors (distance s) ++ efficiencyErrors (efficiency s)
          ++ current ++ past)%list
  /\ (List.length (distanceErrors (distance s)) <= 1)%nat
  /\ (List.length (efficiencyErrors (efficiency s)) <= 1)%nat
  /\ (List.length current <= 1)%nat
  /\ (List.length past <= 1)%nat
  /\ (distanceErrors (distance s) = [] <-> distanceRule (distance s) = true)
  /\ (efficiencyErrors (efficiency s) = []
      <-> efficiencyRule (efficiency s) = true)
  /\ (current = [] <-> priceRule (currentFuelPrice s) = true)
  /\ (past = [] <-> priceRule (pastFuelPrice s) = true)
  /\ (snd (validateInputs s) = true <-> errs = [])
  /\ (distance s = Num #(-1) -> efficiency s = Num #0 ->
      errs = ("Distance cannot be negative"
              :: "Efficiency must be greater than 0" :: current ++ past)%list
      /\ (current = [] -> past = [] ->
          errs = ["Distance cannot be negative";
                  "Efficiency must be greater than 0"])).
Proof.
  cbv zeta.
  split; [reflexivity|].
  split; [apply distanceErrors_length|].
  split; [apply efficiencyErrors_length|].
  split; [apply priceErrors_length|].
  split; [apply priceErrors_length|].
  split; [apply distanceErrors_rule|].
  split; [apply efficiencyErrors_rule|].
  split; [apply priceErrors_rule|].
  split; [apply priceErrors_rule|].
  split; [apply validateInputs_ok|].
  intros Hd He. unfold validateInputs; simpl. unfold validationErrors.
  rewrite Hd, He.
  split; [reflexivity|].
  intros Hc Hp. rewrite Hc, Hp. reflexivity.
Qed.

Lemma validateInputs_field_order_witness :
  distance twoErrorsState = Num #(-1)
  /\ efficiency twoErrorsState = Num #0
  /\ priceErrors "Current" (priceLabel (vehicleType twoErrorsState))
       (currentFuelPrice twoErrorsState) = []
  /\ priceErrors "Past" (priceLabel (vehicleType twoErrorsState))
       (pastFuelPrice twoErrorsState) = []
  /\ errors (fst (validateInputs twoErrorsState))
     = ["Distance cannot be negative"; "Efficiency must be greater than 0"].
Proof.
  repeat (split; [reflexivity|]).
  apply (validateInputs_field_order twoErrorsState); reflexivity.
Defined.

(** An event that leaves a stored breakdown absent is Reset. *)
Lemma only_reset_clears (a : Action) (s : AppState) :
  computedBreakdown s <> None ->
  computedBreakdown (step a s) = None -> a = Reset.
Proof.
  intros Hsome Hnone.
  destruct a; simpl in Hnone; trivial; try contradiction.
  unfold handleCalculate, validateInputs in Hnone.
  destruct (validationErrors s); simpl in Hnone;
    [discriminate | contradiction].
Qed.

(** C3.  When validation fails, the Calculate handler stores no new
    breakdown: the stored one, if any, is the one from before.  A stored
    breakdown is absent after an event only when the event is Reset, and
    Reset always clears it. *)
Theorem failed_calculate_keeps_breakdown (s : AppState) :
  (snd (validateInputs s) = false ->
   computedBreakdown (handleCalculate s) = computedBreakdown s)
  /\ (forall a : Action,
        computedBreakdown s <> None ->
        computedBreakdown (step a s) = None -> a = Reset)
  /\ computedBreakdown (step Reset s) = None.
Proof.
  split; [| split].
  - intro Hfail.
    assert (Hne : validationErrors s <> []).
    { intro Hnil. apply validateInputs_ok in Hnil. congruence. }
    rewrite (handleCalculate_invalid s Hne). reflexivity.
  - intros a. apply only_reset_clears.
  - reflexivity.
Qed.

Lemma failed_calculate_keeps_breakdown_witness :
  let s := run [Submit; EditDistance (Num #(-1))] initialState in
  snd (validateInputs s) = false
  /\ computedBreakdown s <> None
  /\ computedBreakdown (handleCalculate s) = computedBreakdown s
  /\ computedBreakdown (step Reset s) = None.
Proof.
  cbv zeta.
  split; [reflexivity|].
  split; [discriminate|].
  split.
  - apply (failed_calculate_keeps_breakdown
             (run [Submit; EditDistance (Num #(-1))] initialState)).
    reflexivity.
  - apply (failed_calculate_keeps_breakdown
             (run [Submit; EditDistance (Num #(-1))] initialState)).
Defined.

(** Over a whole sequence of events: a breakdown that was stored and is
    absent at the end was cleared by a Reset in the sequence. *)
Lemma breakdown_cleared_only_by_reset (acts : list Action) (s : AppState) :
  computedBreakdown s <> None ->
  computedBreakdown (run acts s) = None ->
  In Reset acts.
Proof.
  revert s. induction acts as [|a acts IH]; intros s Hsome Hnone.
  - simpl in Hnone. contradiction.
  - change (run (a :: acts) s) with (run acts (step a s)) in Hnone.
    destruct (computedBreakdown (step a s)) as [b|] eqn:Hstep.
    + right. apply (IH (step a s)); [rewrite Hstep; discriminate | assumption].
    + left. apply (only_reset_clears a s Hsome Hstep).
Qed.

(** C4.  With distance 15000, efficiency 6.5, current price 185 and past
    price 300 the Calculate handler stores exactly consumed = 975,
    previousEstimatedCost = 292500, newFuelCost = 180375, newTaxes = 104250
    and newTotalCost = 284625; the savings are 292500 - 284625 = 7875, and
    the test [savings >= 0] of the display holds. *)
Theorem default_scenario (s : AppState) :
  distance s = Num #15000 ->
  efficiency s = Num (Prim2SF 6.5%float) ->
  currentFuelPrice s = Num #185 ->
  pastFuelPrice s = Num #300 ->
  computedBreakdown (handleCalculate s)
  = Some (mkBreakdown #975 #292500 #180375 #104250 #284625)
  /\ savings (handleCalculate s) = Some (#292500 - #284625)
  /\ savings (handleCalculate s) = Some #7875
  /\ (#7875 >=? #0) = true.
Proof.
  destruct s as [vt d e c p errs g v ec b l]. simpl.
  intros -> -> -> ->. vm_compute. repeat split; reflexivity.
Qed.

Lemma default_scenario_witness :
  computedBreakdown calculatedState
  = Some (mkBreakdown #975 #292500 #180375 #104250 #284625)
  /\ savings calculatedState = Some #7875.
Proof.
  assert (H := default_scenario initialState).
  split; apply H; reflexivity.
Defined.

(** ** Boundaries of the validator *)

(** A number above a positive bound is neither NaN, nor negative, nor zero. *)
Lemma above_positive (lim d : number) :
  (#0 <? lim) = true -> (d >? lim) = true ->
  isNaN d = false /\ (d <? #0) = false /\ (d <=? #0) = false.
Proof.
  unfold gtb.
  destruct lim as [[]|[]| |[] m0 e0], d as [[]|[]| |[] m e];
    intros H0 H; try discriminate H0; try discriminate H;
    repeat split; reflexivity.
Qed.

Lemma distance_above_limit (d : number) :
  (d >? #1000000) = true ->
  distanceErrors (Num d) = ["Distance seems unreasonably large"].
Proof.
  intro H.
  destruct (above_positive #1000000 d eq_refl H) as (Hnan & Hneg & _).
  unfold distanceErrors, missing, Number. rewrite Hnan, Hneg, H. reflexivity.
Qed.

Lemma efficiency_above_limit (x : number) :
  (x >? #1000) = true ->
  efficiencyErrors (Num x) = ["Efficiency seems unreasonably large"].
Proof.
  intro H.
  destruct (above_positive #1000 x eq_refl H) as (Hnan & _ & Hle).
  unfold efficiencyErrors, missing, Number. rewrite Hnan, Hle, H. reflexivity.
Qed.

Lemma price_below_zero (which label : string) (p : number) :
  (p <? #0) = true ->
  priceErrors which label (Num p)
  = [(which ++ " " ++ label ++ " cannot be negative")%string].
Proof.
  intro H. unfold priceErrors, missing, Number.
  rewrite (ltb_not_NaN_l p #0 H), H. reflexivity.
Qed.

Lemma price_above_limit (which label : string) (p : number) :
  (p >? #10000) = true ->
  priceErrors which label (Num p)
  = [(which ++ " " ++ label ++ " seems unreasonably large")%string].
Proof.
  intro H.
  destruct (above_positive #10000 p eq_refl H) as (Hnan & Hneg & _).
  unfold priceErrors, missing, Number. rewrite Hnan, Hneg, H. reflexivity.
Qed.

(** C6.  Distance 1,000,000 passes and every larger distance gets the
    "unreasonably large" message; efficiency 0 gets the "must be greater
    than 0" message; efficiency 1000 passes and every larger efficiency
    fails; a price passes at 0 and at 10,000, and fails below 0 and above
    10,000. *)
Theorem validator_boundaries (which label : string) :
  distanceErrors (Num #1000000) = []
  /\ (forall d : number, (d >? #1000000) = true ->
        distanceErrors (Num d) = ["Distance seems unreasonably large"])
  /\ efficiencyErrors (Num #0) = ["Efficiency must be greater than 0"]
  /\ efficiencyErrors (Num #1000) = []
  /\ (forall x : number, (x >? #1000) = true ->
        efficiencyErrors (Num x) = ["Efficiency seems unreasonably large"])
  /\ priceErrors which label (Num #0) = []
  /\ priceErrors which label (Num #10000) = []
  /\ (forall p : number, (p <? #0) = true ->
        priceErrors which label (Num p)
        = [(which ++ " " ++ label ++ " cannot be negative")%string])
  /\ (forall p : number, (p >? #10000) = true ->
        priceErrors which label (Num p)
        = [(which ++ " " ++ label ++ " seems unreasonably large")%string]).
Proof.
  split; [reflexivity|].
  split; [apply distance_above_limit|].
  split; [reflexivity|].
  split; [reflexivity|].
  split; [apply efficiency_above_limit|].
  split; [reflexivity|].
  split; [reflexivity|].
  split; [apply price_below_zero | apply price_above_limit].
Qed.

Lemma validator_boundaries_witness :
  distanceErrors (Num (Prim2SF 1000000.01%float))
  = ["Distance seems unreasonably large"]
  /\ efficiencyErrors (Num (Prim2SF 1000.01%float))
     = ["Efficiency seems unreasonably large"]
  /\ priceErrors "Current" "fuel price" (Num (Prim2SF (-0.01)%float))
     = ["Current fuel price cannot be negative"]
  /\ priceErrors "Past" "electricity price" (Num (Prim2SF 10000.01%float))
     = ["Past electricity price seems unreasonably large"].
Proof.
  split; [apply (validator_boundaries "Current" "fuel price"); reflexivity|].
  split; [apply (validator_boundaries "Current" "fuel price"); reflexivity|].
  split; [apply (validator_boundaries "Current" "fuel price"); reflexivity|].
  apply (validator_boundaries "Past" "electricity price"); reflexivity.
Defined.

(** ** Effects of the validator *)

(** C9, as stated, fails: validating a state whose error list is empty and
    whose distance is -1 stores a message, so the state after validation is
    not the state before. *)
Lemma validateInputs_changes_errors :
  let s := run [EditDistance (Num #(-1))] initialState in
  errors s = []
  /\ errors (fst (validateInputs s)) = ["Distance cannot be negative"]
  /\ fst (validateInputs s) <> s.
Proof.
  cbv zeta. split; [reflexivity|]. split; [reflexivity|].
  intro H. apply (f_equal errors) in H. discriminate H.
Qed.

(** C9, amended.  The validator writes exactly one component of the state,
    the stored error list, which becomes the list of messages it found;
    the vehicle type, the four inputs, the stored breakdown, the chart
    toggles and the language are left as they were. *)
Theorem validateInputs_frame (s : AppState) :
  let s' := fst (validateInputs s) in
  s' = setErrors (validationErrors s) s
  /\ errors s' = validationErrors s
  /\ vehicleType s' = vehicleType s
  /\ distance s' = distance s
  /\ efficiency s' = efficiency s
  /\ currentFuelPrice s' = currentFuelPrice s
  /\ pastFuelPrice s' = pastFuelPrice s
  /\ computedBreakdown s' = computedBreakdown s
  /\ isGraphExpanded s' = isGraphExpanded s
  /\ isVehicleComparisonExpanded s' = isVehicleComparisonExpanded s
  /\ isEfficiencyComparisonExpanded s' = isEfficiencyComparisonExpanded s
  /\ language s' = language s.
Proof. cbv zeta. repeat split; reflexivity. Qed.

(** The validator of the earlier revision stores its messages as well and
    leaves the rest of its state alone. *)
Lemma earlier_validateInputs_frame (s : Earlier.AppState) :
  fst (Earlier.validateInputs s)
  = Earlier.setErrors (Earlier.validationErrors s) s.
Proof. reflexivity. Qed.

(** ** The sampling loop *)

Section ForLoop.

Context {A : Type}.
Variables (maxDistance step : number) (body : number -> A).

Lemma for_loop_exit (fuel : nat) (d : number) :
  (d <=? maxDistance) = false ->
  for_loop fuel maxDistance step body d = Some [].
Proof. intro H. destruct fuel; cbn [for_loop]; rewrite H; reflexivity. Qed.

Lemma for_loop_no_fuel (d : number) :
  (d <=? maxDistance) = true ->
  for_loop 0 maxDistance step body d = None.
Proof. intro H. cbn [for_loop]. rewrite H. reflexivity. Qed.

Lemma for_loop_iterate (fuel : nat) (d : number) :
  (d <=? maxDistance) = true ->
  for_loop (S fuel) maxDistance step body d
  = match for_loop fuel maxDistance step body (d + step) with
    | Some data => Some (body d :: data)
    | None => None
    end.
Proof. intro H. cbn [for_loop]. rewrite H. reflexivity. Qed.

(** Enough fuel gives the points of the sampled distances, in order. *)
Lemma Samples_for_loop (d : number) (ds : list number) :
  Samples maxDistance step d ds ->
  forall fuel : nat, (List.length ds <= fuel)%nat ->
  for_loop fuel maxDistance step body d = Some (map body ds).
Proof.
  induction 1 as [d Hout | d ds Hin _ IH]; intros fuel Hfuel.
  - apply for_loop_exit; assumption.
  - destruct fuel as [|fuel]; [simpl in Hfuel; lia|].
    rewrite (for_loop_iterate fuel d Hin).
    rewrite IH by (simpl in Hfuel; lia). reflexivity.
Qed.

(** Whatever the loop returns is the points of the sampled distances. *)
Lemma for_loop_Samples (fuel : nat) :
  forall (d : number) (data : list A),
  for_loop fuel maxDistance step body d = Some data ->
  exists ds : list number,
    Samples maxDistance step d ds /\ data = map body ds
    /\ (List.length ds <= fuel)%nat.
Proof.
  induction fuel as [|fuel IH]; intros d data Hrun;
    destruct (d <=? maxDistance) eqn:Hle.
  - rewrite (for_loop_no_fuel d Hle) in Hrun. discriminate.
  - rewrite (for_loop_exit 0 d Hle) in Hrun. injection Hrun as <-.
    exists []. split; [constructor; assumption | split; [reflexivity | simpl; lia]].
  - rewrite (for_loop_iterate fuel d Hle) in Hrun.
    destruct (for_loop fuel maxDistance step body (d + step)) as [rest|] eqn:Hrest;
      [|discriminate].
    injection Hrun as <-.
    destruct (IH _ _ Hrest) as (ds & Hds & -> & Hlen).
    exists (d :: ds). split; [constructor; assumption|].
    split; [reflexivity | simpl; lia].
  - rewrite (for_loop_exit (S fuel) d Hle) in Hrun. injection Hrun as <-.
    exists []. split; [constructor; assumption | split; [reflexivity | simpl; lia]].
Qed.

(** A loop whose distance stops moving while the test holds never ends. *)
Lemma for_loop_stuck (d : number) :
  (d <=? maxDistance) = true -> d + step = d ->
  forall fuel : nat, for_loop fuel maxDistance step body d = None.
Proof.
  intros Hle Hfix fuel. induction fuel as [|fuel IH].
  - apply for_loop_no_fuel; assumption.
  - rewrite (for_loop_iterate fuel d Hle), Hfix, IH. reflexivity.
Qed.

Lemma for_loop_stuck_next (d : number) :
  (d <=? maxDistance) = true ->
  (d + step <=? maxDistance) = true -> (d + step) + step = d + step ->
  forall fuel : nat, for_loop fuel maxDistance step body d = None.
Proof.
  intros Hle Hle' Hfix fuel. destruct fuel as [|fuel].
  - apply for_loop_no_fuel; assumption.
  - rewrite (for_loop_iterate fuel d Hle).
    rewrite (for_loop_stuck (d + step) Hle' Hfix). reflexivity.
Qed.

End ForLoop.

Lemma Samples_bounded (maxDistance step d : number) (ds : list number) :
  Samples maxDistance step d ds ->
  Forall (fun x => (x <=? maxDistance) = true) ds.
Proof. induction 1; constructor; assumption. Qed.

Lemma Samples_first (maxDistance step d : number) (ds : list number) :
  Samples maxDistance step d ds -> ds = [] \/ hd_error ds = Some d.
Proof. destruct 1; [left | right]; reflexivity. Qed.

Lemma Samples_unique (maxDistance step d : number) (ds ds' : list number) :
  Samples maxDistance step d ds -> Samples maxDistance step d ds' -> ds = ds'.
Proof.
  intro H. revert ds'.
  induction H as [d Hout | d ds Hin _ IH]; intros ds' H'; destruct H';
    try congruence.
  f_equal. apply IH. assumption.
Qed.

(** ** Guards of the generators *)

Lemma falsy_spec (v : field) :
  falsy v = true
  <-> v = Empty \/ v = Undefined \/ v = Num NaN
      \/ exists sign : bool, v = Num (S754_zero sign).
Proof.
  split.
  - destruct v as [[sign| | |]| |]; simpl; intro H; try discriminate; eauto.
  - intros [-> | [-> | [-> | [sign ->]]]]; reflexivity.
Qed.

Lemma all_guard (s : AppState) :
  noBreakdown s || falsy (distance s) || falsy (efficiency s)
  || falsy (currentFuelPrice s) || falsy (pastFuelPrice s)
  = negb (allInputsUsable s).
Proof.
  unfold allInputsUsable.
  destruct (noBreakdown s), (falsy (distance s)), (falsy (efficiency s)),
    (falsy (currentFuelPrice s)), (falsy (pastFuelPrice s)); reflexivity.
Qed.

Lemma allInputsUsable_true (s : AppState) :
  allInputsUsable s = true
  <-> computedBreakdown s <> None /\ falsy (distance s) = false
      /\ falsy (efficiency s) = false /\ falsy (currentFuelPrice s) = false
      /\ falsy (pastFuelPrice s) = false.
Proof.
  unfold allInputsUsable, noBreakdown.
  destruct (computedBreakdown s), (falsy (distance s)), (falsy (efficiency s)),
    (falsy (currentFuelPrice s)), (falsy (pastFuelPrice s)); simpl;
    split; intro H; try discriminate; try reflexivity;
    try (repeat split; congruence);
    destruct H as (H0 & H1 & H2 & H3 & H4); congruence.
Qed.

Lemma distanceUsable_true (s : AppState) :
  distanceUsable s = true
  <-> computedBreakdown s <> None /\ falsy (distance s) = false.
Proof.
  unfold distanceUsable, noBreakdown.
  destruct (computedBreakdown s), (falsy (distance s)); simpl;
    split; intro H; try discriminate; try reflexivity;
    try (split; congruence); destruct H; congruence.
Qed.

Lemma graphData_run (fuel : nat) (s : AppState) :
  allInputsUsable s = true ->
  graphData fuel s
  = for_loop fuel (maxDistanceOf (distance s))
      (stepOf (maxDistanceOf (distance s))) (graphBody s) #0.
Proof. intro H. unfold graphData. rewrite all_guard, H. reflexivity. Qed.

Lemma graphData_off (fuel : nat) (s : AppState) :
  allInputsUsable s = false -> graphData fuel s = Some [].
Proof. intro H. unfold graphData. rewrite all_guard, H. reflexivity. Qed.

Lemma efficiencyComparisonData_run (fuel : nat) (s : AppState) :
  allInputsUsable s = true ->
  efficiencyComparisonData fuel s
  = for_loop fuel (maxDistanceOf (distance s))
      (stepOf (maxDistanceOf (distance s))) (efficiencyBody s) #0.
Proof.
  intro H. unfold efficiencyComparisonData. rewrite all_guard, H. reflexivity.
Qed.

Lemma efficiencyComparisonData_off (fuel : nat) (s : AppState) :
  allInputsUsable s = false -> efficiencyComparisonData fuel s = Some [].
Proof.
  intro H. unfold efficiencyComparisonData. rewrite all_guard, H. reflexivity.
Qed.

Lemma vehicleComparisonData_run (fuel : nat) (s : AppState) :
  distanceUsable s = true ->
  vehicleComparisonData fuel s
  = for_loop fuel (maxDistanceOf (distance s))
      (stepOf (maxDistanceOf (distance s))) (vehicleBody s) #0.
Proof.
  unfold distanceUsable, vehicleComparisonData.
  destruct (noBreakdown s), (falsy (distance s)); simpl; intro H;
    try discriminate; reflexivity.
Qed.

Lemma vehicleComparisonData_off (fuel : nat) (s : AppState) :
  distanceUsable s = false -> vehicleComparisonData fuel s = Some [].
Proof.
  unfold distanceUsable, vehicleComparisonData.
  destruct (noBreakdown s), (falsy (distance s)); simpl; intro H;
    try discriminate; reflexivity.
Qed.

Lemma unusable_distance (s : AppState) :
  computedBreakdown s = None \/ falsy (distance s) = true ->
  allInputsUsable s = false /\ distanceUsable s = false.
Proof.
  unfold allInputsUsable, distanceUsable, noBreakdown.
  intros [-> | ->]; destruct (computedBreakdown s); simpl; auto.
Qed.

(** ** The sampling policy *)

(** C5, as stated, fails.  After a calculation at distance 0 a breakdown is
    stored, all its costs are 0 and the maximal distance is 0, yet each
    generator returns the empty sequence: none returns the single point at
    distance 0. *)
Lemma zero_distance_gives_no_point :
  computedBreakdown zeroDistanceState = Some (mkBreakdown #0 #0 #0 #0 #0)
  /\ maxDistanceOf (distance zeroDistanceState) = #0
  /\ (forall fuel : nat,
        graphData fuel zeroDistanceState = Some []
        /\ vehicleComparisonData fuel zeroDistanceState = Some []
        /\ efficiencyComparisonData fuel zeroDistanceState = Some [])
  /\ ~ (exists (fuel : nat) (p : GraphPoint),
          graphData fuel zeroDistanceState = Some [p]).
Proof.
  split; [reflexivity|]. split; [reflexivity|].
  assert (Hall : forall fuel : nat,
             graphData fuel zeroDistanceState = Some []
             /\ vehicleComparisonData fuel zeroDistanceState = Some []
             /\ efficiencyComparisonData fuel zeroDistanceState = Some []).
  { intro fuel.
    split; [apply graphData_off; reflexivity|].
    split; [apply vehicleComparisonData_off; reflexivity|].
    apply efficiencyComparisonData_off; reflexivity. }
  split; [exact Hall|].
  intros (fuel & p & Hp). rewrite (proj1 (Hall fuel)) in Hp. discriminate.
Qed.

(** C5, amended.  With maxDistance = 2 * distance and step = ceil
    (maxDistance / 20), a generator whose guard passes visits the distances
    0, step, 2 * step, ... for as long as the distance is at most
    maxDistance, and with enough fuel returns one point per visited
    distance, in that order; whatever it returns has that form, every
    sampled distance is at most maxDistance and the first one is 0.  When
    the distance is unset, NaN or zero (so that maxDistance would be 0),
    every generator returns the empty sequence. *)
Theorem sampling_policy (s : AppState) :
  let maxDistance := maxDistanceOf (distance s) in
  let step := stepOf maxDistance in
  (forall n : number, distance s = Num n -> maxDistance = n * #2)
  /\ step = ceil (maxDistance / #20)
  /\ (forall (ds : list number) (fuel : nat),
        Samples maxDistance step #0 ds -> (List.length ds <= fuel)%nat ->
        (allInputsUsable s = true ->
         graphData fuel s = Some (map (graphBody s) ds)
         /\ efficiencyComparisonData fuel s = Some (map (efficiencyBody s) ds))
        /\ (distanceUsable s = true ->
            vehicleComparisonData fuel s = Some (map (vehicleBody s) ds)))
  /\ (forall (fuel : nat) (data : list GraphPoint),
        allInputsUsable s = true -> graphData fuel s = Some data ->
        exists ds : list number,
          Samples maxDistance step #0 ds /\ data = map (graphBody s) ds)
  /\ (forall (fuel : nat) (data : list VehiclePoint),
        distanceUsable s = true -> vehicleComparisonData fuel s = Some data ->
        exists ds : list number,
          Samples maxDistance step #0 ds /\ data = map (vehicleBody s) ds)
  /\ (forall (fuel : nat) (data : list EfficiencyPoint),
        allInputsUsable s = true ->
        efficiencyComparisonData fuel s = Some data ->
        exists ds : list number,
          Samples maxDistance step #0 ds /\ data = map (efficiencyBody s) ds)
  /\ (forall ds : list number,
        Samples maxDistance step #0 ds ->
        Forall (fun d => (d <=? maxDistance) = true) ds
        /\ (ds = [] \/ hd_error ds = Some #0))
  /\ (falsy (distance s) = true ->
      forall fuel : nat,
        graphData fuel s = Some []
        /\ vehicleComparisonData fuel s = Some []
        /\ efficiencyComparisonData fuel s = Some []).
Proof.
  cbv zeta.
  split; [intros n ->; reflexivity|].
  split; [reflexivity|].
  split.
  { intros ds fuel Hds Hfuel. split; intro Hguard.
    - rewrite (graphData_run fuel s Hguard).
      rewrite (efficiencyComparisonData_run fuel s Hguard).
      split; apply Samples_for_loop; assumption.
    - rewrite (vehicleComparisonData_run fuel s Hguard).
      apply Samples_for_loop; assumption. }
  split.
  { intros fuel data Hguard Hrun. rewrite (graphData_run fuel s Hguard) in Hrun.
    destruct (for_loop_Samples _ _ _ fuel _ _ Hrun) as (ds & Hds & Hdata & _).
    exists ds. split; assumption. }
  split.
  { intros fuel data Hguard Hrun.
    rewrite (vehicleComparisonData_run fuel s Hguard) in Hrun.
    destruct (for_loop_Samples _ _ _ fuel _ _ Hrun) as (ds & Hds & Hdata & _).
    exists ds. split; assumption. }
  split.
  { intros fuel data Hguard Hrun.
    rewrite (efficiencyComparisonData_run fuel s Hguard) in Hrun.
    destruct (for_loop_Samples _ _ _ fuel _ _ Hrun) as (ds & Hds & Hdata & _).
    exists ds. split; assumption. }
  split.
  { intros ds Hds. split.
    - apply (Samples_bounded _ _ _ _ Hds).
    - apply (Samples_first _ _ _ _ Hds). }
  intros Hfalsy fuel.
  destruct (unusable_distance s (or_intror Hfalsy)) as [Hall Hdist].
  split; [apply graphData_off; assumption|].
  split; [apply vehicleComparisonData_off; assumption|].
  apply efficiencyComparisonData_off; assumption.
Qed.

Lemma sampling_policy_witness :
  Samples (maxDistanceOf (distance calculatedState))
    (stepOf (maxDistanceOf (distance calculatedState))) #0 defaultSamples
  /\ allInputsUsable calculatedState = true
  /\ distanceUsable calculatedState = true
  /\ graphData 21 calculatedState
     = Some (map (graphBody calculatedState) defaultSamples)
  /\ efficiencyComparisonData 21 calculatedState
     = Some (map (efficiencyBody calculatedState) defaultSamples)
  /\ vehicleComparisonData 21 calculatedState
     = Some (map (vehicleBody calculatedState) defaultSamples)
  /\ falsy (distance zeroDistanceState) = true
  /\ graphData 21 zeroDistanceState = Some [].
Proof.
  assert (Hds : Samples (maxDistanceOf (distance calculatedState))
                  (stepOf (maxDistanceOf (distance calculatedState))) #0
                  defaultSamples) by sample_all.
  assert (Hlen : (List.length defaultSamples <= 21)%nat) by (vm_compute; lia).
  destruct (sampling_policy calculatedState)
    as (_ & _ & Hrun & _ & _ & _ & _ & _).
  destruct (Hrun defaultSamples 21%nat Hds Hlen) as [Hall Hdist].
  destruct (Hall eq_refl) as [Hgraph Heff].
  split; [exact Hds|]. split; [reflexivity|]. split; [reflexivity|].
  split; [exact Hgraph|]. split; [exact Heff|].
  split; [exact (Hdist eq_refl)|]. split; [reflexivity|].
  apply (sampling_policy zeroDistanceState). reflexivity.
Defined.

(** ** When the generators produce points *)

(** C7, as stated, fails.  With a breakdown stored and the efficiency field
    cleared, the vehicle-type generator still returns its 21 points. *)
Lemma vehicle_chart_without_efficiency :
  computedBreakdown clearedEfficiencyState <> None
  /\ efficiency clearedEfficiencyState = Empty
  /\ falsy (efficiency clearedEfficiencyState) = true
  /\ vehicleComparisonData 21 clearedEfficiencyState
     = Some (map (vehicleBody clearedEfficiencyState) defaultSamples)
  /\ vehicleComparisonData 21 clearedEfficiencyState <> Some [].
Proof.
  split; [discriminate|]. split; [reflexivity|]. split; [reflexivity|].
  assert (Hrun : vehicleComparisonData 21 clearedEfficiencyState
                 = Some (map (vehicleBody clearedEfficiencyState) defaultSamples)).
  { rewrite vehicleComparisonData_run by reflexivity.
    apply Samples_for_loop; [sample_all | vm_compute; lia]. }
  split; [exact Hrun|].
  rewrite Hrun. discriminate.
Qed.

(** C7, amended.  [graphData] and [efficiencyComparisonData] return a
    non-empty dataset only when a breakdown is stored and distance,
    efficiency, current price and past price are all set, not NaN and not
    zero; [vehicleComparisonData] returns one only when a breakdown is
    stored and the distance is set, not NaN and not zero.  Without a
    breakdown or with such a distance every generator returns the empty
    sequence; with an unset, NaN or zero efficiency or price, [graphData]
    and [efficiencyComparisonData] return the empty sequence. *)
Theorem chart_guards (s : AppState) (fuel : nat) :
  (forall (p : GraphPoint) (data : list GraphPoint),
     graphData fuel s = Some (p :: data) ->
     computedBreakdown s <> None /\ falsy (distance s) = false
     /\ falsy (efficiency s) = false /\ falsy (currentFuelPrice s) = false
     /\ falsy (pastFuelPrice s) = false)
  /\ (forall (p : EfficiencyPoint) (data : list EfficiencyPoint),
        efficiencyComparisonData fuel s = Some (p :: data) ->
        computedBreakdown s <> None /\ falsy (distance s) = false
        /\ falsy (efficiency s) = false /\ falsy (currentFuelPrice s) = false
        /\ falsy (pastFuelPrice s) = false)
  /\ (forall (p : VehiclePoint) (data : list VehiclePoint),
        vehicleComparisonData fuel s = Some (p :: data) ->
        computedBreakdown s <> None /\ falsy (distance s) = false)
  /\ (computedBreakdown s = None \/ falsy (distance s) = true ->
      graphData fuel s = Some []
      /\ vehicleComparisonData fuel s = Some []
      /\ efficiencyComparisonData fuel s = Some [])
  /\ (falsy (efficiency s) = true \/ falsy (currentFuelPrice s) = true
      \/ falsy (pastFuelPrice s) = true ->
      graphData fuel s = Some [] /\ efficiencyComparisonData fuel s = Some []).
Proof.
  split; [| split; [| split; [| split]]].
  - intros p data Hrun. apply allInputsUsable_true.
    destruct (allInputsUsable s) eqn:Hguard; [reflexivity|].
    rewrite (graphData_off fuel s Hguard) in Hrun. discriminate.
  - intros p data Hrun. apply allInputsUsable_true.
    destruct (allInputsUsable s) eqn:Hguard; [reflexivity|].
    rewrite (efficiencyComparisonData_off fuel s Hguard) in Hrun. discriminate.
  - intros p data Hrun. apply distanceUsable_true.
    destruct (distanceUsable s) eqn:Hguard; [reflexivity|].
    rewrite (vehicleComparisonData_off fuel s Hguard) in Hrun. discriminate.
  - intro H. destruct (unusable_distance s H) as [Hall Hdist].
    split; [apply graphData_off; assumption|].
    split; [apply vehicleComparisonData_off; assumption|].
    apply efficiencyComparisonData_off; assumption.
  - intro H.
    assert (Hall : allInputsUsable s = false).
    { unfold allInputsUsable.
      destruct H as [-> | [-> | ->]];
        destruct (noBreakdown s), (falsy (distance s)); simpl;
        try reflexivity;
        repeat rewrite andb_false_r; reflexivity. }
    split; [apply graphData_off | apply efficiencyComparisonData_off];
      assumption.
Qed.

Lemma chart_guards_witness :
  falsy (efficiency clearedEfficiencyState) = true
  /\ graphData 21 clearedEfficiencyState = Some []
  /\ efficiencyComparisonData 21 clearedEfficiencyState = Some []
  /\ computedBreakdown initialState = None
  /\ vehicleComparisonData 21 initialState = Some [].
Proof.
  split; [reflexivity|].
  assert (H := chart_guards clearedEfficiencyState 21).
  destruct H as (_ & _ & _ & _ & H).
  split; [apply H; left; reflexivity|].
  split; [apply H; left; reflexivity|].
  split; [reflexivity|].
  apply (chart_guards initialState 21). left. reflexivity.
Defined.

(** ** The efficiency chart *)

(** The clamped efficiency is never negative. *)
Lemma max_zero_not_negative (x : number) : (max #0 x <? #0) = false.
Proof. destruct x as [[]|[]| |[] m e]; reflexivity. Qed.

(** What [Math.max(0, x)] is, case by case: [x] itself when [x] is above 0,
    +0 when [x] is below 0 or a zero, and NaN when [x] is NaN. *)
Lemma max_zero_cases (x : number) :
  ((#0 <? x) = true -> max #0 x = x)
  /\ ((x <? #0) = true \/ isZero x = true -> max #0 x = #0)
  /\ (isNaN x = true -> isNaN (max #0 x) = true).
Proof.
  destruct x as [[]|[]| |[] m e]; repeat split;
    try (intros [H | H]; discriminate H || reflexivity);
    try (intro H; discriminate H || reflexivity).
Qed.

(** C8.  With base efficiency e, the point the efficiency generator builds
    at a sample distance holds four values: the old-system cost at e, and
    the new-system cost at e, at e + 1 and at max(0, e - 1), each rounded;
    every point returned is such a point, and enough fuel returns one per
    sampled distance.  At e = 0.5 the last efficiency is 0, not -0.5; the
    clamp is a total function whose value is never negative.  The clamped
    efficiency is e - 1 itself whenever e - 1 is above 0 (5.5 at e = 6.5),
    and +0 whenever e - 1 is below 0 or a zero. *)
Theorem efficiency_sensitivity (s : AppState) :
  let e := orZero (efficiency s) in
  let current := orZero (currentFuelPrice s) in
  let past := orZero (pastFuelPrice s) in
  (forall d : number,
     efficiencyBody s d
     = mkEfficiencyPoint d
         (round (oldCostAt d e past))
         (round (newCostAt d e current))
         (round (newCostAt d (e + #1) current))
         (round (newCostAt d (max #0 (e - #1)) current)))
  /\ (forall (fuel : nat) (data : list EfficiencyPoint),
        efficiencyComparisonData fuel s = Some data ->
        Forall (fun p => p = efficiencyBody s (eDistance p)) data)
  /\ (forall (ds : list number) (fuel : nat),
        allInputsUsable s = true ->
        Samples (maxDistanceOf (distance s))
          (stepOf (maxDistanceOf (distance s))) #0 ds ->
        (List.length ds <= fuel)%nat ->
        efficiencyComparisonData fuel s = Some (map (efficiencyBody s) ds))
  /\ (efficiency s = Num (Prim2SF 0.5%float) ->
      moreEfficientValue s = #0
      /\ moreEfficientValue s <> Prim2SF (-0.5)%float)
  /\ moreEfficientValue s = max #0 (e - #1)
  /\ (moreEfficientValue s <? #0) = false
  /\ lessEfficientValue s = e + #1
  /\ ((#0 <? e - #1) = true -> moreEfficientValue s = e - #1)
  /\ ((e - #1 <? #0) = true \/ isZero (e - #1) = true ->
      moreEfficientValue s = #0)
  /\ (isNaN (e - #1) = true -> isNaN (moreEfficientValue s) = true).
Proof.
  cbv zeta.
  split; [intro d; reflexivity|].
  split.
  { intros fuel data Hrun.
    destruct (allInputsUsable s) eqn:Hguard.
    - rewrite (efficiencyComparisonData_run fuel s Hguard) in Hrun.
      destruct (for_loop_Samples _ _ _ fuel _ _ Hrun) as (ds & _ & -> & _).
      clear Hrun. induction ds as [|d ds IH]; constructor;
        [reflexivity | assumption].
    - rewrite (efficiencyComparisonData_off fuel s Hguard) in Hrun.
      injection Hrun as <-. constructor. }
  split.
  { intros ds fuel Hguard Hds Hfuel.
    rewrite (efficiencyComparisonData_run fuel s Hguard).
    apply Samples_for_loop; assumption. }
  split.
  { intro He. unfold moreEfficientValue, baseEfficiency. rewrite He.
    split; [reflexivity | discriminate]. }
  split; [reflexivity|].
  split; [apply max_zero_not_negative|].
  split; [reflexivity|].
  apply (max_zero_cases (orZero (efficiency s) - #1)).
Qed.

Lemma efficiency_sensitivity_witness :
  efficiency halfEfficiencyState = Num (Prim2SF 0.5%float)
  /\ moreEfficientValue halfEfficiencyState = #0
  /\ allInputsUsable halfEfficiencyState = true
  /\ efficiencyComparisonData 21 halfEfficiencyState
     = Some (map (efficiencyBody halfEfficiencyState)
               (map (fun k : nat => #(Z.of_nat k)) (seq 0 21)))
  /\ map eNewMoreEfficient
       (map (efficiencyBody halfEfficiencyState)
          (map (fun k : nat => #(Z.of_nat k)) (seq 0 21)))
     = map (fun k : nat => round (#(Z.of_nat k) * Prim2SF 6.95%float))
         (seq 0 21)
  /\ efficiency calculatedState = Num (Prim2SF 6.5%float)
  /\ lessEfficientValue calculatedState = Prim2SF 7.5%float
  /\ moreEfficientValue calculatedState = Prim2SF 5.5%float
  /\ efficiencyComparisonData 21 calculatedState
     = Some (map (efficiencyBody calculatedState) defaultSamples)
  /\ map eNewMoreEfficient
       (map (efficiencyBody calculatedState) defaultSamples)
     = map (fun d => round (newCostAt d (Prim2SF 5.5%float) #185))
         defaultSamples
  /\ moreEfficientValue
       (run [EditEfficiency (Num #1)] calculatedState) = #0
  /\ moreEfficientValue
       (run [EditEfficiency (Num #2)] calculatedState) = #1.
Proof.
  assert (H := efficiency_sensitivity halfEfficiencyState).
  destruct H as (_ & _ & Hrun & Hhalf & _ & _).
  destruct (efficiency_sensitivity calculatedState)
    as (_ & _ & Hrun' & _ & _ & _ & Hless & Hmore & _ & _).
  destruct (efficiency_sensitivity
              (run [EditEfficiency (Num #1)] calculatedState))
    as (_ & _ & _ & _ & _ & _ & _ & _ & Hone & _).
  destruct (efficiency_sensitivity
              (run [EditEfficiency (Num #2)] calculatedState))
    as (_ & _ & _ & _ & _ & _ & _ & Htwo & _ & _).
  split; [reflexivity|].
  split; [apply Hhalf; reflexivity|].
  split; [reflexivity|].
  split; [apply Hrun; [reflexivity | sample_all | vm_compute; lia]|].
  split; [vm_compute; reflexivity|].
  split; [reflexivity|].
  split; [rewrite Hless; reflexivity|].
  split; [rewrite (Hmore eq_refl); reflexivity|].
  split; [apply Hrun'; [reflexivity | sample_all | vm_compute; lia]|].
  split; [vm_compute; reflexivity|].
  split; [apply Hone; right; reflexivity|].
  rewrite (Htwo eq_refl). reflexivity.
Defined.

(** ** Termination of the generators *)

(** C10.  The generators are not total.  After a calculation, a distance
    edited to 1e308 passes every guard; twice that distance is Infinity, so
    is the step, and the loop test [d <= Infinity] holds for ever: no amount
    of fuel lets any generator return.  A distance edited to 5e-324 passes
    every guard too; the step is ceil(0) = 0, the loop stays at d = 0, and
    again no generator returns. *)
Theorem chart_loops_diverge (fuel : nat) :
  (allInputsUsable hugeDistanceState = true
   /\ maxDistanceOf (distance hugeDistanceState) = Infinity
   /\ stepOf (maxDistanceOf (distance hugeDistanceState)) = Infinity
   /\ graphData fuel hugeDistanceState = None
   /\ vehicleComparisonData fuel hugeDistanceState = None
   /\ efficiencyComparisonData fuel hugeDistanceState = None)
  /\ (allInputsUsable tinyDistanceState = true
      /\ stepOf (maxDistanceOf (distance tinyDistanceState)) = #0
      /\ graphData fuel tinyDistanceState = None
      /\ vehicleComparisonData fuel tinyDistanceState = None
      /\ efficiencyComparisonData fuel tinyDistanceState = None).
Proof.
  split.
  - split; [reflexivity|]. split; [reflexivity|]. split; [reflexivity|].
    rewrite graphData_run, vehicleComparisonData_run,
      efficiencyComparisonData_run by reflexivity.
    repeat split; apply for_loop_stuck_next; reflexivity.
  - split; [reflexivity|]. split; [reflexivity|].
    rewrite graphData_run, vehicleComparisonData_run,
      efficiencyComparisonData_run by reflexivity.
    repeat split; apply for_loop_stuck_next; reflexivity.
Qed.

(** * Further properties of the handlers *)

(** ** Calculate *)

(** Pressing Calculate twice in a row gives the state of pressing it once:
    the second press finds the same messages and the same breakdown. *)
Theorem handleCalculate_idempotent (s : AppState) :
  handleCalculate (handleCalculate s) = handleCalculate s.
Proof.
  destruct (validationErrors s) as [|e errs] eqn:Herrs.
  - rewrite (handleCalculate_valid s Herrs).
    rewrite handleCalculate_valid by exact Herrs. reflexivity.
  - assert (Hne : validationErrors s <> []) by (rewrite Herrs; discriminate).
    rewrite (handleCalculate_invalid s Hne).
    rewrite handleCalculate_invalid by exact Hne. reflexivity.
Qed.

(** Calculate leaves the vehicle type, the four inputs, the chart toggles
    and the language as they were.  After it the stored messages are exactly
    the messages of the inputs on display; when there is none the stored
    breakdown is the breakdown of those inputs, and otherwise it is the one
    stored before. *)
Theorem handleCalculate_frame (s : AppState) :
  let s' := handleCalculate s in
  vehicleType s' = vehicleType s
  /\ distance s' = distance s
  /\ efficiency s' = efficiency s
  /\ currentFuelPrice s' = currentFuelPrice s
  /\ pastFuelPrice s' = pastFuelPrice s
  /\ isGraphExpanded s' = isGraphExpanded s
  /\ isVehicleComparisonExpanded s' = isVehicleComparisonExpanded s
  /\ isEfficiencyComparisonExpanded s' = isEfficiencyComparisonExpanded s
  /\ language s' = language s
  /\ errors s' = validationErrors s'
  /\ (errors s' = [] -> computedBreakdown s' = Some (breakdownOf s'))
  /\ (errors s' <> [] -> computedBreakdown s' = computedBreakdown s).
Proof.
  cbv zeta.
  destruct (validationErrors s) as [|e errs] eqn:Herrs.
  - rewrite (handleCalculate_valid s Herrs).
    repeat (split; [reflexivity|]).
    split; [symmetry; exact Herrs|].
    split; [reflexivity|]. intro H. simpl in H. congruence.
  - assert (Hne : validationErrors s <> []) by (rewrite Herrs; discriminate).
    rewrite (handleCalculate_invalid s Hne).
    repeat (split; [reflexivity|]).
    split; [intro H; simpl in H; congruence | reflexivity].
Qed.

(** ** Validation and the vehicle type *)

Lemma priceErrors_label_length (which which' label label' : string)
    (v : field) :
  List.length (priceErrors which label v)
  = List.length (priceErrors which' label' v).
Proof.
  unfold priceErrors.
  destruct (missing v), (Number v <? #0), (Number v >? #10000); reflexivity.
Qed.



(** ** The presets *)

Lemma listed_presets_valid (vt : VehicleType) (label : string) :
  listed vt = true ->
  efficiencyErrors (defaultEfficiency vt) = []
  /\ priceErrors "Current" label (defaultCurrentPrice vt) = []
  /\ priceErrors "Past" label (defaultPastPrice vt) = [].
Proof.
  unfold listed, defaultEfficiency, defaultCurrentPrice, defaultPastPrice.
  destruct (vt =? PetrolDiesel)%string; [repeat split; reflexivity|].
  destruct (vt =? Electric)%string; [repeat split; reflexivity|].
  discriminate.
Qed.

Lemma unlisted_presets_undefined (vt : VehicleType) :
  listed vt = false ->
  defaultEfficiency vt = Undefined /\ defaultCurrentPrice vt = Undefined
  /\ defaultPastPrice vt = Undefined /\ priceLabel vt = "fuel price".
Proof.
  unfold listed, defaultEfficiency, defaultCurrentPrice, defaultPastPrice,
    priceLabel.
  destruct (vt =? PetrolDiesel)%string; [discriminate|].
  destruct (vt =? Electric)%string; [discriminate|].
  repeat split; reflexivity.
Qed.

(** The select handler stores the text it receives as the vehicle type,
    leaves the distance, the stored messages and the stored breakdown
    alone, and a second choice overrides the first.  When the text is one
    of the two keys ['Petrol/Diesel'] and ['Electric'], the efficiency and
    prices it fills in pass validation: the only messages validation can
    then find are those of the distance, so it passes exactly when the
    distance keeps its rule.  For any other text (an option label in a
    language whose labels are not the keys) the three cells become
    [undefined]: validation finds the three "required" messages after those
    of the distance, Calculate stores no breakdown, and the old-versus-new
    and efficiency datasets are empty. *)
Theorem presets_pass_validation (vt : VehicleType) (s : AppState) :
  let s' := step (SelectVehicleType vt) s in
  vehicleType s' = vt
  /\ distance s' = distance s
  /\ errors s' = errors s
  /\ computedBreakdown s' = computedBreakdown s
  /\ (forall vt' : VehicleType,
        step (SelectVehicleType vt') s' = step (SelectVehicleType vt') s)
  /\ (listed vt = true ->
      validationErrors s' = distanceErrors (distance s)
      /\ snd (validateInputs s') = distanceRule (distance s))
  /\ (listed vt = false ->
      efficiency s' = Undefined /\ currentFuelPrice s' = Undefined
      /\ pastFuelPrice s' = Undefined
      /\ validationErrors s'
         = (distanceErrors (distance s)
            ++ ["Efficiency is required"; "Current fuel price is required";
                "Past fuel price is required"])%list
      /\ snd (validateInputs s') = false
      /\ computedBreakdown (handleCalculate s') = computedBreakdown s
      /\ (forall fuel : nat,
            graphData fuel s' = Some []
            /\ efficiencyComparisonData fuel s' = Some [])).
Proof.
  cbv zeta.
  repeat (split; [reflexivity|]).
  split.
  - intro Hlisted.
    destruct (listed_presets_valid vt (priceLabel vt) Hlisted)
      as (He & Hc & Hp).
    assert (Herrs : validationErrors (step (SelectVehicleType vt) s)
                    = distanceErrors (distance s)).
    { unfold validationErrors, step, onVehicleTypeChange.
      cbn [distance efficiency currentFuelPrice pastFuelPrice vehicleType
           setPastFuelPrice setCurrentFuelPrice setEfficiency setVehicleType].
      rewrite He, Hc, Hp. apply app_nil_r. }
    split; [exact Herrs|].
    unfold validateInputs. cbn [snd]. rewrite Herrs.
    destruct (distanceRule (distance s)) eqn:Hrule.
    + apply distanceErrors_rule in Hrule. rewrite Hrule. reflexivity.
    + destruct (distanceErrors (distance s)) eqn:Hd; [|reflexivity].
      apply distanceErrors_rule in Hd. congruence.
  - intro Hunlisted.
    destruct (unlisted_presets_undefined vt Hunlisted)
      as (He & Hc & Hp & Hlabel).
    assert (Herrs : validationErrors (step (SelectVehicleType vt) s)
                    = (distanceErrors (distance s)
                       ++ ["Efficiency is required";
                           "Current fuel price is required";
                           "Past fuel price is required"])%list).
    { unfold validationErrors, step, onVehicleTypeChange.
      cbn [distance efficiency currentFuelPrice pastFuelPrice vehicleType
           setPastFuelPrice setCurrentFuelPrice setEfficiency setVehicleType].
      rewrite He, Hc, Hp, Hlabel. reflexivity. }
    assert (Hne : validationErrors (step (SelectVehicleType vt) s) <> []).
    { rewrite Herrs. intro H. apply app_eq_nil in H as [_ H]. discriminate H. }
    split; [exact He|]. split; [exact Hc|]. split; [exact Hp|].
    split; [exact Herrs|].
    split.
    { destruct (snd (validateInputs (step (SelectVehicleType vt) s))) eqn:Hok;
        [|reflexivity].
      apply validateInputs_ok in Hok. contradiction. }
    split; [rewrite (handleCalculate_invalid _ Hne); reflexivity|].
    intro fuel.
    assert (Hoff : allInputsUsable (step (SelectVehicleType vt) s) = false).
    { unfold allInputsUsable, step, onVehicleTypeChange.
      cbn [distance efficiency currentFuelPrice pastFuelPrice
           setPastFuelPrice setCurrentFuelPrice setEfficiency setVehicleType].
      rewrite He. cbn [falsy negb].
      rewrite !andb_false_r. reflexivity. }
    split; [apply graphData_off | apply efficiencyComparisonData_off];
      exact Hoff.
Qed.

Lemma presets_pass_validation_witness :
  listed Electric = true
  /\ snd (validateInputs (step (SelectVehicleType Electric) initialState))
     = true
  /\ listed "Rafmagn" = false
  /\ validationErrors (step (SelectVehicleType "Rafmagn") initialState)
     = ["Efficiency is required"; "Current fuel price is required";
        "Past fuel price is required"]
  /\ snd (validateInputs (step (SelectVehicleType "Rafmagn") initialState))
     = false.
Proof.
  split; [reflexivity|].
  destruct (presets_pass_validation Electric initialState)
    as (_ & _ & _ & _ & _ & Hyes & _).
  destruct (presets_pass_validation "Rafmagn" initialState)
    as (_ & _ & _ & _ & _ & _ & Hno).
  split; [rewrite (proj2 (Hyes eq_refl)); reflexivity|].
  split; [reflexivity|].
  destruct (Hno eq_refl) as (_ & _ & _ & Herrs & Hfail & _).
  split; [rewrite Herrs; reflexivity | exact Hfail].
Defined.

(** ** Reset *)

(** Whatever the state, Reset gives the inputs of the first render: petrol,
    15000 km, 6.5, 185 and 300, with no message and no breakdown, and leaves
    the chart toggles and the language as they are.  The state after Reset
    passes validation, a second Reset changes nothing, and Reset followed by
    Calculate stores the breakdown 975 / 292500 / 180375 / 104250 / 284625
    with no message. *)
Theorem reset_restores_defaults (s : AppState) :
  let r := step Reset s in
  r = mkState PetrolDiesel (Num #15000) (Num (Prim2SF 6.5%float))
        (Num #185) (Num #300) [] (isGraphExpanded s)
        (isVehicleComparisonExpanded s) (isEfficiencyComparisonExpanded s)
        None (language s)
  /\ snd (validateInputs r) = true
  /\ step Reset r = r
  /\ computedBreakdown (run [Reset; Submit] s)
     = Some (mkBreakdown #975 #292500 #180375 #104250 #284625)
  /\ errors (run [Reset; Submit] s) = [].
Proof.
  cbv zeta. destruct s as [vt d e c p errs g v ec b l].
  vm_compute. repeat split; reflexivity.
Qed.

(** ** What the events leave alone *)

(** Editing an input, choosing a vehicle type, toggling a chart and changing
    the language never change the stored breakdown, the savings or the
    stored messages: these stay as the last Calculate or Reset left them,
    whatever is typed afterwards. *)
Theorem edits_keep_results (a : Action) (s : AppState) :
  isEdit a = true ->
  computedBreakdown (step a s) = computedBreakdown s
  /\ savings (step a s) = savings s
  /\ errors (step a s) = errors s.
Proof.
  destruct a; simpl; intro H; try discriminate H; repeat split; reflexivity.
Qed.

Lemma edits_keep_results_witness :
  computedBreakdown hugeDistanceState = computedBreakdown calculatedState
  /\ errors hugeDistanceState = errors calculatedState.
Proof.
  split;
    apply (edits_keep_results (EditDistance (Num #(10 ^ 308))) calculatedState);
    reflexivity.
Defined.

(** One event keeps the breakdown, if any, one of validated numbers. *)
Lemma step_keeps_validated (a : Action) (s : AppState) :
  (forall b, computedBreakdown s = Some b ->
     exists d eff cur past,
       distanceRule (Num d) = true /\ efficiencyRule (Num eff) = true
       /\ priceRule (Num cur) = true /\ priceRule (Num past) = true
       /\ b = breakdownFrom d eff cur past) ->
  forall b, computedBreakdown (step a s) = Some b ->
    exists d eff cur past,
      distanceRule (Num d) = true /\ efficiencyRule (Num eff) = true
      /\ priceRule (Num cur) = true /\ priceRule (Num past) = true
      /\ b = breakdownFrom d eff cur past.
Proof.
  intros Hinv b Hb.
  destruct a; try (apply Hinv; exact Hb); [| discriminate Hb].
  simpl in Hb.
  destruct (validationErrors s) as [|e errs] eqn:Herrs.
  - rewrite (handleCalculate_valid s Herrs) in Hb. simpl in Hb.
    injection Hb as <-.
    destruct (validated_fields s Herrs)
      as (d & eff & cur & past & Hd & He & Hc & Hp).
    unfold validationErrors in Herrs.
    apply app_eq_nil in Herrs as [Ed Herrs].
    apply app_eq_nil in Herrs as [Ee Herrs].
    apply app_eq_nil in Herrs as [Ec Ep].
    apply distanceErrors_rule in Ed. apply efficiencyErrors_rule in Ee.
    apply priceErrors_rule in Ec. apply priceErrors_rule in Ep.
    rewrite Hd in Ed. rewrite He in Ee. rewrite Hc in Ec. rewrite Hp in Ep.
    exists d, eff, cur, past. repeat (split; [assumption|]).
    unfold breakdownOf, breakdownFrom. rewrite Hd, He, Hc, Hp. reflexivity.
  - assert (Hne : validationErrors s <> []) by (rewrite Herrs; discriminate).
    rewrite (handleCalculate_invalid s Hne) in Hb. apply Hinv. exact Hb.
Qed.

(** A breakdown stored in a state reached from the first render was
    computed from four numbers that kept the validation rules at the time:
    it is the breakdown of some distance in [0, 1000000], efficiency in
    (0, 1000] and prices in [0, 10000], whatever the inputs show now. *)
Theorem stored_breakdown_is_validated (acts : list Action) (b : Breakdown) :
  computedBreakdown (run acts initialState) = Some b ->
  exists d eff cur past,
    distanceRule (Num d) = true /\ efficiencyRule (Num eff) = true
    /\ priceRule (Num cur) = true /\ priceRule (Num past) = true
    /\ b = breakdownFrom d eff cur past.
Proof.
  assert (Hgen : forall (l : list Action) (s : AppState),
             (forall b0, computedBreakdown s = Some b0 ->
                exists d eff cur past,
                  distanceRule (Num d) = true
                  /\ efficiencyRule (Num eff) = true
                  /\ priceRule (Num cur) = true
                  /\ priceRule (Num past) = true
                  /\ b0 = breakdownFrom d eff cur past) ->
             forall b0, computedBreakdown (run l s) = Some b0 ->
               exists d eff cur past,
                 distanceRule (Num d) = true
                 /\ efficiencyRule (Num eff) = true
                 /\ priceRule (Num cur) = true
                 /\ priceRule (Num past) = true
                 /\ b0 = breakdownFrom d eff cur past).
  { induction l as [|a l IH]; intros s Hinv b0 Hb0.
    - apply Hinv. exact Hb0.
    - change (run (a :: l) s) with (run l (step a s)) in Hb0.
      apply (IH (step a s)); [apply step_keeps_validated; exact Hinv | exact Hb0]. }
  apply Hgen. intros b0 Hb0. discriminate Hb0.
Qed.

Lemma stored_breakdown_is_validated_witness :
  exists d eff cur past,
    distanceRule (Num d) = true /\ efficiencyRule (Num eff) = true
    /\ priceRule (Num cur) = true /\ priceRule (Num past) = true
    /\ mkBreakdown #975 #292500 #180375 #104250 #284625
       = breakdownFrom d eff cur past.
Proof.
  apply (stored_breakdown_is_validated
           [Submit; EditDistance (Num #(10 ^ 308)); Submit]).
  reflexivity.
Defined.

(** * Further properties of the generators *)

Section ForLoopMaps.

Context {A B : Type}.
Variables (maxDistance step : number).

(** Loops whose bodies agree return the same data. *)
Lemma for_loop_ext (body body' : number -> A) :
  (forall d, body d = body' d) ->
  forall (fuel : nat) (d : number),
    for_loop fuel maxDistance step body d
    = for_loop fuel maxDistance step body' d.
Proof.
  intros Hext fuel. induction fuel as [|fuel IH]; intro d; cbn [for_loop].
  - reflexivity.
  - rewrite IH, Hext. reflexivity.
Qed.

(** Reading a component of every point is running the loop on that
    component. *)
Lemma for_loop_map (f : A -> B) (body : number -> A) :
  forall (fuel : nat) (d : number),
    option_map (map f) (for_loop fuel maxDistance step body d)
    = for_loop fuel maxDistance step (fun x => f (body x)) d.
Proof.
  induction fuel as [|fuel IH]; intro d; cbn [for_loop];
    destruct (d <=? maxDistance); try reflexivity.
  rewrite <- IH.
  destruct (for_loop fuel maxDistance step body (d + step)); reflexivity.
Qed.

(** The first point of a non-empty result is the body at the start. *)
Lemma for_loop_first (body : number -> A) (fuel : nat) (d : number)
    (p : A) (data : list A) :
  for_loop fuel maxDistance step body d = Some (p :: data) -> p = body d.
Proof.
  destruct fuel as [|fuel]; cbn [for_loop];
    destruct (d <=? maxDistance); try discriminate.
  destruct (for_loop fuel maxDistance step body (d + step));
    [|discriminate].
  intro H. injection H as H _. symmetry. exact H.
Qed.

(** The number of points does not depend on the body. *)
Lemma for_loop_length (body : number -> A) (body' : number -> B) :
  forall (fuel : nat) (d : number),
    option_map (@List.length A) (for_loop fuel maxDistance step body d)
    = option_map (@List.length B) (for_loop fuel maxDistance step body' d).
Proof.
  induction fuel as [|fuel IH]; intro d; cbn [for_loop];
    destruct (d <=? maxDistance); try reflexivity.
  specialize (IH (d + step)).
  destruct (for_loop fuel maxDistance step body (d + step)),
    (for_loop fuel maxDistance step body' (d + step));
    simpl in *; congruence.
Qed.

End ForLoopMaps.

(** ** What the generators read *)

(** The values of the three datasets are functions of the vehicle type, the
    four inputs and the presence of a breakdown: two states in the same
    language that agree on these give the same datasets, whatever numbers
    the stored breakdown holds and whatever the stored messages and the
    chart toggles are. *)
Theorem generators_read_inputs_only (s s' : AppState) (fuel : nat) :
  sameChartInputs s s' ->
  graphData fuel s = graphData fuel s'
  /\ vehicleComparisonData fuel s = vehicleComparisonData fuel s'
  /\ efficiencyComparisonData fuel s = efficiencyComparisonData fuel s'.
Proof.
  destruct s as [vt d e c p errs g v ec b l].
  destruct s' as [vt' d' e' c' p' errs' g' v' ec' b' l'].
  unfold sameChartInputs. cbn [vehicleType distance efficiency
    currentFuelPrice pastFuelPrice language].
  intros (-> & -> & -> & -> & -> & Hb & _).
  destruct b, b'; try discriminate Hb; repeat split; reflexivity.
Qed.

Lemma generators_read_inputs_only_witness :
  let s := run [EditDistance (Num #(-1)); Submit; EditDistance (Num #15000);
                ToggleGraph] calculatedState in
  errors s <> errors calculatedState
  /\ isGraphExpanded s <> isGraphExpanded calculatedState
  /\ graphData 21 s = graphData 21 calculatedState
  /\ vehicleComparisonData 21 s = vehicleComparisonData 21 calculatedState.
Proof.
  cbv zeta. split; [discriminate|]. split; [discriminate|].
  split;
    apply (generators_read_inputs_only
             (run [EditDistance (Num #(-1)); Submit;
                   EditDistance (Num #15000); ToggleGraph] calculatedState)
             calculatedState 21);
    repeat split; reflexivity.
Defined.

(** Once a breakdown is stored, pressing Calculate changes no chart,
    whether validation passes or not: the charts already follow the inputs
    on display. *)
Theorem charts_survive_calculate (s : AppState) (fuel : nat) :
  computedBreakdown s <> None ->
  graphData fuel (handleCalculate s) = graphData fuel s
  /\ vehicleComparisonData fuel (handleCalculate s)
     = vehicleComparisonData fuel s
  /\ efficiencyComparisonData fuel (handleCalculate s)
     = efficiencyComparisonData fuel s.
Proof.
  intro Hb.
  assert (Hnb : noBreakdown s = false).
  { unfold noBreakdown. destruct (computedBreakdown s); congruence. }
  destruct (validationErrors s) as [|e errs] eqn:Herrs.
  - rewrite (handleCalculate_valid s Herrs).
    unfold graphData, vehicleComparisonData, efficiencyComparisonData.
    rewrite Hnb. repeat split; reflexivity.
  - assert (Hne : validationErrors s <> []) by (rewrite Herrs; discriminate).
    rewrite (handleCalculate_invalid s Hne). repeat split; reflexivity.
Qed.

Lemma charts_survive_calculate_witness :
  computedBreakdown hugeDistanceState <> None
  /\ vehicleComparisonData 21 (handleCalculate clearedEfficiencyState)
     = vehicleComparisonData 21 clearedEfficiencyState.
Proof.
  split; [discriminate|].
  apply (charts_survive_calculate clearedEfficiencyState 21). discriminate.
Defined.

(** ** The three datasets side by side *)

(** When the guard shared by the old-versus-new and the efficiency charts
    passes, the three datasets are aligned: for any fuel they finish
    together, with the same distances in the same order, and the series of
    the current vehicle coincide across the charts (old system, and new
    system at the base efficiency). *)
Theorem datasets_aligned (s : AppState) (fuel : nat) :
  allInputsUsable s = true ->
  let graph := graphData fuel s in
  let vehicle := vehicleComparisonData fuel s in
  let eff := efficiencyComparisonData fuel s in
  option_map (map gDistance) graph = option_map (map vDistance) vehicle
  /\ option_map (map gDistance) graph = option_map (map eDistance) eff
  /\ option_map (map gOldSystem) graph = option_map (map vCurrentOld) vehicle
  /\ option_map (map gOldSystem) graph = option_map (map eOldSystem) eff
  /\ option_map (map gNewSystem) graph = option_map (map vCurrentNew) vehicle
  /\ option_map (map gNewSystem) graph = option_map (map eNewBase) eff
  /\ option_map (@List.length _) graph = option_map (@List.length _) vehicle
  /\ option_map (@List.length _) graph = option_map (@List.length _) eff.
Proof.
  intro Hall. cbv zeta.
  assert (Hdist : distanceUsable s = true).
  { apply distanceUsable_true. apply allInputsUsable_true in Hall.
    destruct Hall as (Hb & Hd & _). split; assumption. }
  rewrite (graphData_run fuel s Hall), (vehicleComparisonData_run fuel s Hdist),
    (efficiencyComparisonData_run fuel s Hall).
  rewrite !for_loop_map.
  repeat split; try reflexivity; apply for_loop_length.
Qed.

Lemma datasets_aligned_witness :
  option_map (map gDistance) (graphData 21 calculatedState)
  = option_map (map eDistance) (efficiencyComparisonData 21 calculatedState)
  /\ option_map (map gNewSystem) (graphData 21 calculatedState)
     = option_map (map vCurrentNew) (vehicleComparisonData 21 calculatedState).
Proof.
  split; apply (datasets_aligned calculatedState 21); reflexivity.
Defined.

(** ** The first point *)

Lemma old_cost_origin (e past : number) :
  originOld (isFinite e && isFinite past) (round (oldCostAt #0 e past)).
Proof.
  destruct e as [[]|[]| |[] me ee], past as [[]|[]| |[] mp ep];
    vm_compute; reflexivity.
Qed.

Lemma new_cost_origin (e cur : number) :
  originNew (isFinite e && isFinite cur) (round (newCostAt #0 e cur)).
Proof.
  destruct e as [[]|[]| |[] me ee], cur as [[]|[]| |[] mc ec];
    vm_compute; reflexivity.
Qed.

(** At distance 0 the two series of the other vehicle type are 0, whatever
    the vehicle type on display. *)
Lemma other_cost_origin (vt : VehicleType) :
  round (newCostAt #0 (Number (defaultEfficiency (otherVehicleType vt)))
           (Number (defaultCurrentPrice (otherVehicleType vt)))) = #0
  /\ round (oldCostAt #0 (Number (defaultEfficiency (otherVehicleType vt)))
              (Number (defaultPastPrice (otherVehicleType vt)))) = #0.
Proof.
  unfold otherVehicleType.
  destruct (vt =? Electric)%string; vm_compute; split; reflexivity.
Qed.

(** Every non-empty dataset starts at distance 0, and every cost series
    there is a zero or NaN.  The two series of the other vehicle type are
    0.  A series of the current vehicle is a zero when the efficiency it
    uses and its price are both finite (the old-system one possibly -0, the
    new-system ones +0), and NaN as soon as one of them is infinite or NaN.
    This holds for the two series of the old-versus-new chart, the two
    current-vehicle series of the vehicle-type chart and the four series of
    the efficiency chart, whose last two use the efficiency plus one and
    the clamped efficiency minus one. *)
Theorem charts_start_at_origin (s : AppState) (fuel : nat) :
  let e := orZero (efficiency s) in
  let current := orZero (currentFuelPrice s) in
  let past := orZero (pastFuelPrice s) in
  (forall (p : GraphPoint) (data : list GraphPoint),
     graphData fuel s = Some (p :: data) ->
     gDistance p = #0
     /\ originOld (isFinite e && isFinite past) (gOldSystem p)
     /\ originNew (isFinite e && isFinite current) (gNewSystem p))
  /\ (forall (p : VehiclePoint) (data : list VehiclePoint),
        vehicleComparisonData fuel s = Some (p :: data) ->
        vDistance p = #0 /\ vOtherNew p = #0 /\ vOtherOld p = #0
        /\ originOld (isFinite e && isFinite past) (vCurrentOld p)
        /\ originNew (isFinite e && isFinite current) (vCurrentNew p))
  /\ (forall (p : EfficiencyPoint) (data : list EfficiencyPoint),
        efficiencyComparisonData fuel s = Some (p :: data) ->
        eDistance p = #0
        /\ originOld (isFinite e && isFinite past) (eOldSystem p)
        /\ originNew (isFinite e && isFinite current) (eNewBase p)
        /\ originNew (isFinite (lessEfficientValue s) && isFinite current)
             (eNewLessEfficient p)
        /\ originNew (isFinite (moreEfficientValue s) && isFinite current)
             (eNewMoreEfficient p)).
Proof.
  cbv zeta. split; [| split].
  - intros p data Hrun.
    destruct (allInputsUsable s) eqn:Hall;
      [| rewrite (graphData_off fuel s Hall) in Hrun; discriminate].
    rewrite (graphData_run fuel s Hall) in Hrun.
    apply for_loop_first in Hrun. subst p.
    split; [reflexivity|].
    split; [apply old_cost_origin | apply new_cost_origin].
  - intros p data Hrun.
    destruct (distanceUsable s) eqn:Hdist;
      [| rewrite (vehicleComparisonData_off fuel s Hdist) in Hrun; discriminate].
    rewrite (vehicleComparisonData_run fuel s Hdist) in Hrun.
    apply for_loop_first in Hrun. subst p.
    split; [reflexivity|].
    split; [exact (proj1 (other_cost_origin (vehicleType s)))|].
    split; [exact (proj2 (other_cost_origin (vehicleType s)))|].
    split; [apply old_cost_origin | apply new_cost_origin].
  - intros p data Hrun.
    destruct (allInputsUsable s) eqn:Hall;
      [| rewrite (efficiencyComparisonData_off fuel s Hall) in Hrun; discriminate].
    rewrite (efficiencyComparisonData_run fuel s Hall) in Hrun.
    apply for_loop_first in Hrun. subst p.
    split; [reflexivity|].
    split; [apply old_cost_origin|].
    split; [apply new_cost_origin|].
    split; [apply (new_cost_origin (lessEfficientValue s))
           | apply (new_cost_origin (moreEfficientValue s))].
Qed.

Lemma charts_start_at_origin_witness :
  let s := run [EditEfficiency (Num Infinity)] calculatedState in
  (exists p data,
     efficiencyComparisonData 21 calculatedState = Some (p :: data)
     /\ eDistance p = #0 /\ isZero (eOldSystem p) = true /\ eNewBase p = #0
     /\ eNewLessEfficient p = #0 /\ eNewMoreEfficient p = #0)
  /\ (exists p data,
        graphData 21 s = Some (p :: data)
        /\ isNaN (gOldSystem p) = true /\ isNaN (gNewSystem p) = true).
Proof.
  cbv zeta. split.
  - destruct (efficiencyComparisonData 21 calculatedState)
      as [[|p data]|] eqn:Hrun;
      try (vm_compute in Hrun; discriminate Hrun).
    exists p, data. split; [reflexivity|].
    destruct (charts_start_at_origin calculatedState 21) as (_ & _ & He).
    exact (He p data Hrun).
  - destruct (graphData 21
                (run [EditEfficiency (Num Infinity)] calculatedState))
      as [[|p data]|] eqn:Hrun;
      try (vm_compute in Hrun; discriminate Hrun).
    exists p, data. split; [reflexivity|].
    destruct (charts_start_at_origin
                (run [EditEfficiency (Num Infinity)] calculatedState) 21)
      as (Hg & _).
    destruct (Hg p data Hrun) as (_ & Hold & Hnew). split; assumption.
Defined.

(** ** Valid inputs that show no chart *)

Lemma efficiencyRule_truthy (v : field) :
  efficiencyRule v = true -> falsy v = false.
Proof.
  destruct v as [n| |]; [|discriminate|discriminate].
  unfold efficiencyRule, required, Number, gtb.
  destruct n as [[]|[]| |[] m e]; intro H; try discriminate H; reflexivity.
Qed.

Lemma distanceRule_falsy (v : field) :
  distanceRule v = true -> falsy v = isZero (Number v).
Proof.
  destruct v as [n| |]; [|discriminate|discriminate].
  unfold distanceRule, required, Number, geb.
  destruct n as [[]|[]| |[] m e]; intro H; try discriminate H; reflexivity.
Qed.

Lemma priceRule_falsy (v : field) :
  priceRule v = true -> falsy v = isZero (Number v).
Proof.
  destruct v as [n| |]; [|discriminate|discriminate].
  unfold priceRule, required, Number, geb.
  destruct n as [[]|[]| |[] m e]; intro H; try discriminate H; reflexivity.
Qed.

(** After a Calculate that passes validation, the old-versus-new and the
    efficiency generators are switched on exactly when neither the distance
    nor a price is zero, and the vehicle-type generator exactly when the
    distance is not zero.  So a price of 0, which validation accepts, leaves
    those two datasets empty next to a stored breakdown. *)
Theorem zero_input_hides_charts (s : AppState) :
  snd (validateInputs s) = true ->
  let s' := handleCalculate s in
  computedBreakdown s' = Some (breakdownOf s)
  /\ allInputsUsable s'
     = negb (isZero (Number (distance s)))
       && negb (isZero (Number (currentFuelPrice s)))
       && negb (isZero (Number (pastFuelPrice s)))
  /\ distanceUsable s' = negb (isZero (Number (distance s)))
  /\ (isZero (Number (currentFuelPrice s)) = true
      \/ isZero (Number (pastFuelPrice s)) = true ->
      forall fuel : nat,
        graphData fuel s' = Some []
        /\ efficiencyComparisonData fuel s' = Some []).
Proof.
  intro Hok. apply validateInputs_ok in Hok. cbv zeta.
  rewrite (handleCalculate_valid s Hok).
  assert (Hrules := Hok). unfold validationErrors in Hrules.
  apply app_eq_nil in Hrules as [Ed Hrules].
  apply app_eq_nil in Hrules as [Ee Hrules].
  apply app_eq_nil in Hrules as [Ec Ep].
  apply distanceErrors_rule, distanceRule_falsy in Ed.
  apply efficiencyErrors_rule, efficiencyRule_truthy in Ee.
  apply priceErrors_rule, priceRule_falsy in Ec.
  apply priceErrors_rule, priceRule_falsy in Ep.
  assert (Hall : allInputsUsable
                   (setComputedBreakdown (Some (breakdownOf s)) (setErrors [] s))
                 = negb (isZero (Number (distance s)))
                   && negb (isZero (Number (currentFuelPrice s)))
                   && negb (isZero (Number (pastFuelPrice s)))).
  { unfold allInputsUsable.
    cbn [noBreakdown computedBreakdown distance efficiency currentFuelPrice
         pastFuelPrice setComputedBreakdown setErrors].
    rewrite Ed, Ee, Ec, Ep. cbn [negb andb]. rewrite andb_true_r.
    reflexivity. }
  split; [reflexivity|].
  split; [exact Hall|].
  split.
  { unfold distanceUsable.
    cbn [noBreakdown computedBreakdown distance setComputedBreakdown setErrors].
    rewrite Ed. reflexivity. }
  intros Hzero fuel.
  assert (Hoff : allInputsUsable
                   (setComputedBreakdown (Some (breakdownOf s)) (setErrors [] s))
                 = false).
  { rewrite Hall.
    destruct Hzero as [-> | ->];
      destruct (isZero (Number (distance s)));
      try destruct (isZero (Number (currentFuelPrice s)));
      try destruct (isZero (Number (pastFuelPrice s))); reflexivity. }
  split; [apply graphData_off | apply efficiencyComparisonData_off];
    exact Hoff.
Qed.

Lemma zero_input_hides_charts_witness :
  let s := run [EditCurrentFuelPrice (Num #0)] initialState in
  snd (validateInputs s) = true
  /\ computedBreakdown (handleCalculate s) <> None
  /\ graphData 21 (handleCalculate s) = Some []
  /\ efficiencyComparisonData 21 (handleCalculate s) = Some [].
Proof.
  cbv zeta.
  split; [reflexivity|]. split; [discriminate|].
  destruct (zero_input_hides_charts
              (run [EditCurrentFuelPrice (Num #0)] initialState) eq_refl)
    as (_ & _ & _ & Hoff).
  apply (Hoff (or_introl eq_refl) 21%nat).
Defined.

(** ** The series of the other vehicle type *)

(** In the vehicle-type dataset the distances and the two series of the
    other vehicle type depend on the distance, the vehicle type and the
    presence of a breakdown only: editing the efficiency or a price, or
    clearing one, never changes them. *)
Theorem other_vehicle_series_from_presets (s s' : AppState) (fuel : nat) :
  vehicleType s = vehicleType s' ->
  distance s = distance s' ->
  noBreakdown s = noBreakdown s' ->
  option_map (map vDistance) (vehicleComparisonData fuel s)
  = option_map (map vDistance) (vehicleComparisonData fuel s')
  /\ option_map (map vOtherNew) (vehicleComparisonData fuel s)
     = option_map (map vOtherNew) (vehicleComparisonData fuel s')
  /\ option_map (map vOtherOld) (vehicleComparisonData fuel s)
     = option_map (map vOtherOld) (vehicleComparisonData fuel s').
Proof.
  intros Hvt Hd Hb. unfold vehicleComparisonData. rewrite Hd, Hb.
  destruct (noBreakdown s' || falsy (distance s'));
    [repeat split; reflexivity|].
  cbv zeta. rewrite !for_loop_map.
  repeat split; apply for_loop_ext; intro d; unfold vehicleBody;
    cbn [vDistance vOtherNew vOtherOld]; rewrite Hvt; reflexivity.
Qed.

Lemma other_vehicle_series_from_presets_witness :
  option_map (map vOtherNew) (vehicleComparisonData 21 clearedEfficiencyState)
  = option_map (map vOtherNew) (vehicleComparisonData 21 calculatedState).
Proof.
  apply (other_vehicle_series_from_presets clearedEfficiencyState
           calculatedState 21); reflexivity.
Defined.

(** * The two revisions *)

(** On the same inputs the current revision validates, calculates and draws
    the old-versus-new chart as the earlier one did: validation passes in
    one exactly when it passes in the other, Calculate stores the same
    breakdown and the same savings, and the chart dataset is the same.  The
    stored messages are the same too unless the vehicle is electric, where
    the word "fuel" became "electricity" and nothing else changed. *)
Theorem revisions_agree (s : Earlier.AppState) (fuel : nat) :
  snd (validateInputs (fromEarlier s)) = snd (Earlier.validateInputs s)
  /\ computedBreakdown (handleCalculate (fromEarlier s))
     = Earlier.computedBreakdown (Earlier.handleCalculate s)
  /\ savings (handleCalculate (fromEarlier s))
     = Earlier.savings (Earlier.handleCalculate s)
  /\ graphData fuel (fromEarlier s) = Earlier.graphData fuel s
  /\ graphData fuel (handleCalculate (fromEarlier s))
     = Earlier.graphData fuel (Earlier.handleCalculate s)
  /\ List.length (errors (handleCalculate (fromEarlier s)))
     = List.length (Earlier.errors (Earlier.handleCalculate s))
  /\ (Earlier.vehicleType s <> Earlier.Electric ->
      handleCalculate (fromEarlier s) = fromEarlier (Earlier.handleCalculate s)).
Proof.
  assert (Hlen : List.length (validationErrors (fromEarlier s))
                 = List.length (Earlier.validationErrors s)).
  { unfold validationErrors, Earlier.validationErrors, fromEarlier.
    cbn [distance efficiency currentFuelPrice pastFuelPrice vehicleType].
    rewrite !length_app.
    rewrite (priceErrors_label_length "Current" "Current"
               (priceLabel (mergeVehicleType (Earlier.vehicleType s)))
               "fuel price").
    rewrite (priceErrors_label_length "Past" "Past"
               (priceLabel (mergeVehicleType (Earlier.vehicleType s)))
               "fuel price").
    reflexivity. }
  assert (Hsame : Earlier.vehicleType s <> Earlier.Electric ->
                  validationErrors (fromEarlier s) = Earlier.validationErrors s).
  { intro Hvt. unfold validationErrors, Earlier.validationErrors, fromEarlier.
    cbn [distance efficiency currentFuelPrice pastFuelPrice vehicleType].
    destruct (Earlier.vehicleType s); try reflexivity. congruence. }
  unfold handleCalculate, Earlier.handleCalculate, validateInputs,
    Earlier.validateInputs.
  cbn [snd].
  split; [rewrite Hlen; reflexivity|].
  destruct (validationErrors (fromEarlier s)) as [|e errs] eqn:Hcur;
    destruct (Earlier.validationErrors s) as [|e' errs'] eqn:Hold;
    try (simpl in Hlen; discriminate Hlen).
  - repeat (split; [reflexivity|]).
    destruct s as [vt d ef c p er g b]. repeat (split; [reflexivity|]).
    intros _. reflexivity.
  - repeat (split; [reflexivity|]).
    destruct s as [vt d ef c p er g b]. repeat (split; [reflexivity|]).
    split; [exact Hlen|].
    intro Hvt. specialize (Hsame Hvt). rewrite Hsame.
    reflexivity.
Qed.

Lemma revisions_agree_witness :
  let s := Earlier.mkState Earlier.Diesel (Num #(-1)) (Num #0) (Num #185)
             Empty [] false None in
  Earlier.vehicleType s <> Earlier.Electric
  /\ handleCalculate (fromEarlier s) = fromEarlier (Earlier.handleCalculate s)
  /\ errors (handleCalculate (fromEarlier s))
     = ["Distance cannot be negative"; "Efficiency must be greater than 0";
        "Past fuel price is required"].
Proof.
  cbv zeta. split; [discriminate|].
  assert (H := revisions_agree
                 (Earlier.mkState Earlier.Diesel (Num #(-1)) (Num #0)
                    (Num #185) Empty [] false None) 0).
  destruct H as (_ & _ & _ & _ & _ & _ & H).
  split; [apply H; discriminate | reflexivity].
Defined.

Lemma handleCalculate_frame_witness :
  errors (handleCalculate initialState) = []
  /\ computedBreakdown (handleCalculate initialState)
     = Some (breakdownOf (handleCalculate initialState))
  /\ errors (handleCalculate twoErrorsState) <> []
  /\ computedBreakdown (handleCalculate twoErrorsState)
     = computedBreakdown twoErrorsState.
Proof.
  split; [reflexivity|].
  split; [apply (handleCalculate_frame initialState); reflexivity|].
  split; [discriminate|].
  apply (handleCalculate_frame twoErrorsState). discriminate.
Defined.

(** ** Reset and the vehicle type *)

(** In the current revision Reset is the choice of the text 'Petrol/Diesel'
    followed by distance 15000 and the clearing of messages and breakdown.
    After Reset, as after the choice of any text, the efficiency and the two
    prices are what the preset tables hold under the vehicle type on
    display: three numbers when that text is one of the two keys, and three
    times [undefined] otherwise.  In the earlier revision, whose select
    delivers one of four literal types, Reset did not set the vehicle type:
    after choosing a type other than Petrol and pressing Reset, that type is
    still selected while the efficiency is Petrol's 6.5, not the preset of
    the type on display. *)
Theorem reset_matches_vehicle_type (s : AppState) (e : Earlier.AppState) :
  step Reset s
  = setComputedBreakdown None
      (setErrors []
         (setDistance (Num #15000) (step (SelectVehicleType PetrolDiesel) s)))
  /\ (forall a : Action,
        a = Reset \/ (exists vt, a = SelectVehicleType vt) ->
        let r := step a s in
        efficiency r = defaultEfficiency (vehicleType r)
        /\ currentFuelPrice r = defaultCurrentPrice (vehicleType r)
        /\ pastFuelPrice r = defaultPastPrice (vehicleType r)
        /\ required (efficiency r) = listed (vehicleType r)
        /\ required (currentFuelPrice r) = listed (vehicleType r)
        /\ required (pastFuelPrice r) = listed (vehicleType r)
        /\ (listed (vehicleType r) = false ->
            efficiency r = Undefined /\ currentFuelPrice r = Undefined
            /\ pastFuelPrice r = Undefined))
  /\ (forall vt : Earlier.VehicleType,
        let r := Earlier.onReset (Earlier.onVehicleTypeChange vt e) in
        Earlier.vehicleType r = vt
        /\ Earlier.efficiency r = Num (Prim2SF 6.5%float)
        /\ (vt <> Earlier.Petrol ->
            Earlier.efficiency r
            <> Num (Earlier.defaultEfficiency (Earlier.vehicleType r)))).
Proof.
  split; [reflexivity|]. split.
  - assert (Hany : forall vt : VehicleType,
               required (defaultEfficiency vt) = listed vt
               /\ required (defaultCurrentPrice vt) = listed vt
               /\ required (defaultPastPrice vt) = listed vt
               /\ (listed vt = false ->
                   defaultEfficiency vt = Undefined
                   /\ defaultCurrentPrice vt = Undefined
                   /\ defaultPastPrice vt = Undefined)).
    { intro vt.
      unfold listed, defaultEfficiency, defaultCurrentPrice, defaultPastPrice.
      destruct (vt =? PetrolDiesel)%string;
        [repeat split; try reflexivity; discriminate|].
      destruct (vt =? Electric)%string;
        [repeat split; try reflexivity; discriminate|].
      repeat split; reflexivity. }
    intros a [-> | [vt ->]]; cbv zeta.
    + repeat (split; [reflexivity|]). intro H. discriminate H.
    + change (vehicleType (step (SelectVehicleType vt) s)) with vt.
      change (efficiency (step (SelectVehicleType vt) s))
        with (defaultEfficiency vt).
      change (currentFuelPrice (step (SelectVehicleType vt) s))
        with (defaultCurrentPrice vt).
      change (pastFuelPrice (step (SelectVehicleType vt) s))
        with (defaultPastPrice vt).
      repeat (split; [reflexivity|]). apply Hany.
  - intro vt. cbv zeta. split; [reflexivity|]. split; [reflexivity|].
    intro Hvt. destruct vt; try congruence; discriminate.
Qed.

Lemma reset_matches_vehicle_type_witness :
  let r := Earlier.onReset
             (Earlier.onVehicleTypeChange Earlier.Electric
                (Earlier.mkState Earlier.Petrol (Num #15000)
                   (Num (decimal 65 10)) (Num #185) (Num #300) [] false
                   None)) in
  Earlier.vehicleType r = Earlier.Electric
  /\ Earlier.efficiency r <> Num #18
  /\ efficiency (step Reset calculatedState) = Num (Prim2SF 6.5%float)
  /\ listed "Rafmagn" = false
  /\ efficiency (step (SelectVehicleType "Rafmagn") calculatedState)
     = Undefined.
Proof.
  cbv zeta.
  destruct (reset_matches_vehicle_type calculatedState
              (Earlier.mkState Earlier.Petrol (Num #15000)
                 (Num (decimal 65 10)) (Num #185) (Num #300) [] false None))
    as (_ & Hcur & Hold).
  split; [apply (Hold Earlier.Electric)|].
  split; [apply (Hold Earlier.Electric); discriminate|].
  split.
  { destruct (Hcur Reset (or_introl eq_refl)) as (He & _).
    rewrite He. reflexivity. }
  split; [reflexivity|].
  destruct (Hcur (SelectVehicleType "Rafmagn")
              (or_intror (ex_intro _ "Rafmagn" eq_refl)))
    as (_ & _ & _ & _ & _ & _ & Hundef).
  apply Hundef. reflexivity.
Defined.

(** ** The messages as list keys *)

Lemma distanceErrors_cases (v : field) :
  distanceErrors v = []
  \/ distanceErrors v = ["Annual distance is required"]
  \/ distanceErrors v = ["Distance cannot be negative"]
  \/ distanceErrors v = ["Distance seems unreasonably large"].
Proof.
  unfold distanceErrors.
  destruct (missing v), (Number v <? #0), (Number v >? #1000000); auto.
Qed.

Lemma efficiencyErrors_cases (v : field) :
  efficiencyErrors v = []
  \/ efficiencyErrors v = ["Efficiency is required"]
  \/ efficiencyErrors v = ["Efficiency must be greater than 0"]
  \/ efficiencyErrors v = ["Efficiency seems unreasonably large"].
Proof.
  unfold efficiencyErrors.
  destruct (missing v), (Number v <=? #0), (Number v >? #1000); auto.
Qed.

Lemma priceErrors_cases (which label : string) (v : field) :
  priceErrors which label v = []
  \/ priceErrors which label v
     = [(which ++ " " ++ label ++ " is required")%string]
  \/ priceErrors which label v
     = [(which ++ " " ++ label ++ " cannot be negative")%string]
  \/ priceErrors which label v
     = [(which ++ " " ++ label ++ " seems unreasonably large")%string].
Proof.
  unfold priceErrors.
  destruct (missing v), (Number v <? #0), (Number v >? #10000); auto.
Qed.

Lemma handleCalculate_errors (s : AppState) :
  errors (handleCalculate s) = validationErrors s.
Proof.
  unfold handleCalculate, validateInputs.
  destruct (validationErrors s); reflexivity.
Qed.

(** The stored messages are pairwise distinct, whatever the inputs: the list
    item keys [key={err}] of the error box never collide. *)
Theorem validation_messages_distinct (s : AppState) :
  NoDup (errors (fst (validateInputs s)))
  /\ NoDup (errors (handleCalculate s)).
Proof.
  assert (H : NoDup (validationErrors s)).
  { unfold validationErrors.
    destruct (distanceErrors_cases (distance s)) as [-> | [-> | [-> | ->]]];
      destruct (efficiencyErrors_cases (efficiency s))
        as [-> | [-> | [-> | ->]]];
      destruct (priceErrors_cases "Current" (priceLabel (vehicleType s))
                  (currentFuelPrice s)) as [-> | [-> | [-> | ->]]];
      destruct (priceErrors_cases "Past" (priceLabel (vehicleType s))
                  (pastFuelPrice s)) as [-> | [-> | [-> | ->]]];
      destruct (vehicleType s); cbn [app priceLabel String.append];
      repeat (constructor; [cbn [In]; intuition discriminate|]);
      constructor. }
  split; [exact H|].
  rewrite handleCalculate_errors. exact H.
Qed.
